(** * The Qwen provider runtime ([LobeQwenAI]) and the Stepfun model card

    A shallow embedding of [src/config/modelProviders/stepfun.ts]: the
    static provider card, the request builder
    [buildCompletionParamsByModel], the synthesized two-chunk stream
    [transformResponseToStream], the constructor, [models] and the
    orchestration and error normalisation of [chat].

    JavaScript numbers are IEEE-754 binary64 values and are embedded as
    the primitive floats of Rocq; JavaScript objects built with spread
    and [omit] are embedded as finite maps from property names. *)

From Stdlib Require Import ZArith List Bool.
From Stdlib Require Import Floats.
From stdpp Require Import gmap strings list fin_maps.

Local Open Scope string_scope.

Set Warnings "-inexact-float".

(** ** JavaScript numbers *)

Module JsNumber.

(** [ToBoolean] on a number: [+0], [-0] and [NaN] are falsy. *)
Definition truthy (x : float) : bool :=
  negb (PrimFloat.is_zero x || PrimFloat.is_nan x).

(** [x >= y] on numbers is [y <= x]; any comparison with [NaN] is false. *)
Definition ge (x y : float) : bool := PrimFloat.leb y x.

Definition lt (x y : float) : bool := PrimFloat.ltb x y.

End JsNumber.

(** ** The static provider card *)

Module ModelProviders.

Record ChatModelCard := {
  enabled : option bool;
  id : string;
  tokens : Z;
  vision : option bool
}.

Record ModelProviderCard := {
  chatModels : list ChatModelCard;
  checkModel : string;
  card_id : string;
  showModelFetcher : bool;
  name : string
}.

Definition Stepfun : ModelProviderCard := {|
  chatModels := [
    {| enabled := Some true; id := "step-1-256k"; tokens := 32768; vision := None |};
    {| enabled := Some true; id := "step-1-128k"; tokens := 32768; vision := None |};
    {| enabled := Some true; id := "step-1-32k"; tokens := 32768; vision := None |};
    {| enabled := Some true; id := "step-1v-32k"; tokens := 32768; vision := Some true |};
    {| enabled := None; id := "step-1-8k"; tokens := 8192; vision := None |}
  ];
  checkModel := "step-1-8k";
  card_id := "stepfun";
  showModelFetcher := true;
  name := "阶跃星辰"
|}.

End ModelProviders.

(** ** The canonical request *)

Record ChatMessage := {
  msg_role : string;
  msg_content : string
}.

Record ChatCompletionTool := {
  tool_type : string;
  tool_name : string
}.

Module Payload.

(** Modelled from the spec: the declaration of [ChatStreamPayload] is not
    part of the sources at hand.  The fields are those of the data model
    (messages, model identifier, the sampling parameters temperature,
    top_p, presence and frequency penalty, optional tool declarations and
    the streaming flag); an optional field is [None] when the property is
    absent from the object. *)
Record t := {
  frequency_penalty : option float;
  messages : list ChatMessage;
  model : string;
  presence_penalty : option float;
  stream : option bool;
  temperature : option float;
  tools : option (list ChatCompletionTool);
  top_p : option float
}.

End Payload.

(** ** Objects *)

(** The values held by the properties of a request object. *)
Inductive JsValue :=
| JUndefined
| JBool (b : bool)
| JNum (x : float)
| JStr (s : string)
| JMessages (ms : list ChatMessage)
| JTools (ts : list ChatCompletionTool).

(** A property is copied by a spread only when the source object has it. *)
Definition set_own {A : Type} (k : string) (inj : A -> JsValue) (o : option A)
    (obj : gmap string JsValue) : gmap string JsValue :=
  match o with
  | Some a => <[k := inj a]> obj
  | None => obj
  end.

(** [{ ...payload }]: the own properties of the payload. *)
Definition spread (payload : Payload.t) : gmap string JsValue :=
  set_own "frequency_penalty" JNum (Payload.frequency_penalty payload)
  (<["messages" := JMessages (Payload.messages payload)]>
  (<["model" := JStr (Payload.model payload)]>
  (set_own "presence_penalty" JNum (Payload.presence_penalty payload)
  (set_own "stream" JBool (Payload.stream payload)
  (set_own "temperature" JNum (Payload.temperature payload)
  (set_own "tools" JTools (Payload.tools payload)
  (set_own "top_p" JNum (Payload.top_p payload) ∅))))))).

(** Reading a property: an absent one reads as [undefined]. *)
Definition get (obj : gmap string JsValue) (k : string) : JsValue :=
  default JUndefined (obj !! k).

(** [ToBoolean]. *)
Definition truthy (v : JsValue) : bool :=
  match v with
  | JUndefined => false
  | JBool b => b
  | JNum x => JsNumber.truthy x
  | JStr s => negb (String.eqb s "")
  | JMessages _ | JTools _ => true
  end.

(** lodash [omit(object, ...paths)]: a copy without the listed keys. *)
Definition omit (obj : gmap string JsValue) (paths : list string)
    : gmap string JsValue :=
  foldr delete obj paths.

(** ** The request builder *)

(** [model.startsWith(prefix)]. *)
Definition startsWith (s prefix : string) : bool := String.prefix prefix s.

(** [!!tools?.length]. *)
Definition has_tools (tools : option (list ChatCompletionTool)) : bool :=
  match length <$> tools with
  | Some (S _) => true
  | Some O | None => false
  end.

(** [top_p && top_p >= 1 ? 0.999 : top_p]. *)
Definition clamp_top_p (top_p : option float) : JsValue :=
  match top_p with
  | None => JUndefined
  | Some x =>
      if JsNumber.truthy x && JsNumber.ge x 1 then JNum 0.999%float else JNum x
  end.

Definition vision_unsupported : list string :=
  ["presence_penalty"; "frequency_penalty"; "temperature"; "result_format"; "top_p"].

Definition buildCompletionParamsByModel (payload : Payload.t)
    : gmap string JsValue :=
  let model := Payload.model payload in
  let top_p := Payload.top_p payload in
  let stream := Payload.stream payload in
  let messages := Payload.messages payload in
  let tools := Payload.tools payload in
  let isVisionModel := startsWith model "qwen-vl" in
  let params :=
    <["top_p" := clamp_top_p top_p]>
    (<["stream" := JBool (if has_tools tools then false else default true stream)]>
    (<["result_format" := JStr "message"]>
    (<["messages" := JMessages messages]>
    (spread payload)))) in
  if isVisionModel then omit params vision_unsupported else params.

(** The object [params] of the builder, before the vision filter. *)
Definition params_of (payload : Payload.t) : gmap string JsValue :=
  <["top_p" := clamp_top_p (Payload.top_p payload)]>
  (<["stream" := JBool (if has_tools (Payload.tools payload) then false
                        else default true (Payload.stream payload))]>
  (<["result_format" := JStr "message"]>
  (<["messages" := JMessages (Payload.messages payload)]>
  (spread payload)))).

(** ** Vendor completions and canonical chunks *)

Record FunctionCall := {
  fn_name : string;
  fn_arguments : string
}.

Module Completion.

Record ToolCall := {
  tc_function : FunctionCall;
  tc_id : string;
  tc_type : string
}.

(** [content] is [string | null]; [tool_calls] is optional. *)
Record Message := {
  content : option string;
  role : string;
  tool_calls : option (list ToolCall)
}.

Record Choice := {
  finish_reason : string;
  index : Z;
  logprobs : option string;
  message : Message
}.

Record t := {
  choices : list Choice;
  created : Z;
  id : string;
  model : string;
  system_fingerprint : option string
}.

End Completion.

Module Chunk.

Record ToolCall := {
  tc_function : FunctionCall;
  tc_id : string;
  tc_index : nat;
  tc_type : string
}.

(** [tool_calls] is [None] when the property is absent or [undefined]. *)
Record Delta := {
  content : option string;
  role : string;
  tool_calls : option (list ToolCall)
}.

(** [finish_reason] is [None] for [null]. *)
Record Choice := {
  delta : Delta;
  finish_reason : option string;
  index : Z;
  logprobs : option string
}.

Record t := {
  choices : list Choice;
  created : Z;
  id : string;
  model : string;
  object : string;
  system_fingerprint : option string
}.

End Chunk.

(** [array.map((x, index) => f x index)]. *)
Fixpoint mapi_from {A B : Type} (f : A -> nat -> B) (i : nat) (l : list A)
    : list B :=
  match l with
  | [] => []
  | x :: l' => f x i :: mapi_from f (S i) l'
  end.

Definition mapi {A B : Type} (f : A -> nat -> B) (l : list A) : list B :=
  mapi_from f 0 l.

Definition delta_tool_call (tool : Completion.ToolCall) (index : nat)
    : Chunk.ToolCall := {|
  Chunk.tc_function := Completion.tc_function tool;
  Chunk.tc_id := Completion.tc_id tool;
  Chunk.tc_index := index;
  Chunk.tc_type := Completion.tc_type tool
|}.

(** The choice of the first enqueued chunk. *)
Definition content_choice (choice : Completion.Choice) : Chunk.Choice := {|
  Chunk.delta := {|
    Chunk.content := Completion.content (Completion.message choice);
    Chunk.role := Completion.role (Completion.message choice);
    Chunk.tool_calls :=
      mapi delta_tool_call <$> Completion.tool_calls (Completion.message choice)
  |};
  Chunk.finish_reason := None;
  Chunk.index := Completion.index choice;
  Chunk.logprobs := Completion.logprobs choice
|}.

(** The choice of the second enqueued chunk. *)
Definition finish_choice (choice : Completion.Choice) : Chunk.Choice := {|
  Chunk.delta := {|
    Chunk.content := Completion.content (Completion.message choice);
    Chunk.role := Completion.role (Completion.message choice);
    Chunk.tool_calls := None
  |};
  Chunk.finish_reason := Some (Completion.finish_reason choice);
  Chunk.index := Completion.index choice;
  Chunk.logprobs := Completion.logprobs choice
|}.

(** The stream is the sequence of chunks enqueued by [start] before
    [controller.close()]. *)
Definition transformResponseToStream (data : Completion.t) : list Chunk.t :=
  let chunk := {|
    Chunk.choices := content_choice <$> Completion.choices data;
    Chunk.created := Completion.created data;
    Chunk.id := Completion.id data;
    Chunk.model := Completion.model data;
    Chunk.object := "chat.completion.chunk";
    Chunk.system_fingerprint := None
  |} in
  [ chunk;
    {| Chunk.choices := finish_choice <$> Completion.choices data;
       Chunk.created := Completion.created data;
       Chunk.id := Completion.id data;
       Chunk.model := Completion.model data;
       Chunk.object := "chat.completion.chunk";
       Chunk.system_fingerprint := Completion.system_fingerprint data |} ].

(** ** Errors *)

(** Modelled from the spec: the error taxonomy ([AgentRuntimeErrorType]) is
    declared outside the sources at hand; it is a tagged variant over
    [InvalidProviderAPIKey], [ProviderBizError] and the finer kinds that
    the shared inspector may surface. *)
Inductive AgentRuntimeErrorType :=
| InvalidProviderAPIKey
| ProviderBizError
| FinerKind (kind : string).

Inductive ModelProvider :=
| Qwen.

(** A thrown error object.  [err_status] is the numeric [status] property
    ([None] when the object has none, or holds no number); the vendor SDK
    and the JavaScript runtime only ever throw objects. *)
Record ErrorObject := {
  err_name : string;
  err_message : string;
  err_status : option Z
}.

Definition TypeError (message : string) : ErrorObject :=
  {| err_name := "TypeError"; err_message := message; err_status := None |}.

(** Outcome of a call: a value or a thrown exception. *)
Inductive result (E A : Type) :=
| Return (a : A)
| Throw (e : E).

Arguments Return {E A} a.
Arguments Throw {E A} e.

(** ** The runtime *)

Definition DEFAULT_BASE_URL : string :=
  "https://dashscope.aliyuncs.com/compatible-mode/v1".

(** The options of the constructor: [{ apiKey, baseURL, ...res }]. *)
Record ClientOptions := {
  apiKey : option string;
  baseURL : option string;
  res : gmap string string
}.

(** What the vendor endpoint answers: a live stream of chunks, or a single
    blocking completion. *)
Inductive VendorResponse :=
| LiveStream (chunks : list Chunk.t)
| Blocking (data : Completion.t).

(** The structured error body extracted by the shared inspector. *)
Definition ErrorResult : Type := gmap string JsValue.

(** [handleOpenAIError] gives the structured body and, optionally, a finer
    classification. *)
Record HandledError := {
  errorResult : ErrorResult;
  RuntimeError : option AgentRuntimeErrorType
}.

(** The payload of a runtime error: none, the caught object itself, or the
    body extracted by the inspector. *)
Inductive ErrorPayload :=
| NoPayload
| Caught (e : ErrorObject)
| Inspected (r : ErrorResult).

(** [AgentRuntimeError.createError] and [AgentRuntimeError.chat] build the
    error value from the given fields. *)
Record AgentError := {
  endpoint : option string;
  error : ErrorPayload;
  errorType : AgentRuntimeErrorType;
  provider : option ModelProvider
}.

Definition createError (errorType : AgentRuntimeErrorType) : AgentError :=
  {| endpoint := None; error := NoPayload; errorType := errorType;
     provider := None |}.

(** Everything observable besides the returned value: the construction of
    the SDK client, the network call, the start of the debug sink and the
    logging of its failure. *)
Inductive Event :=
| EvNewClient (key url : string) (rest : gmap string string)
| EvCreate (params : gmap string JsValue)
| EvDebugStream (chunks : list Chunk.t)
| EvConsoleError (e : ErrorObject).

(** A computation logs the events it performs and returns or throws. *)
Definition M (E A : Type) : Type := list Event * result E A.

Definition ret {E A : Type} (a : A) : M E A := ([], Return a).

Definition throw {E A : Type} (e : E) : M E A := ([], Throw e).

Definition bind {E A B : Type} (m : M E A) (f : A -> M E B) : M E B :=
  match m with
  | (log, Return a) => let '(log', r) := f a in ((log ++ log')%list, r)
  | (log, Throw e) => (log, Throw e)
  end.

Definition emit {E : Type} (ev : Event) : M E unit := ([ev], Return tt).

Definition lift {E A : Type} (r : result E A) : M E A := ([], r).

(** [try { body } catch (error) { handler }]. *)
Definition try_catch {E E' A : Type} (body : M E A) (handler : E -> M E' A)
    : M E' A :=
  match body with
  | (log, Return a) => (log, Return a)
  | (log, Throw e) => let '(log', r) := handler e in ((log ++ log')%list, r)
  end.

Notation "'let!' x ':=' m 'in' k" := (bind m (fun x => k))
  (at level 10, x name, m at level 100, k at level 200).
Notation "'do!' m 'in' k" := (bind m (fun _ => k))
  (at level 10, m at level 100, k at level 200).

(** The ambient process: its environment variables, and whether the
    promise of [debugStream] rejects (and with what) on a given stream. *)
Record Process := {
  env : gmap string string;
  debugStream : list Chunk.t -> option ErrorObject
}.

Section Runtime.

(** The SDK client and the collaborators declared outside this file. *)
Variable OpenAI : Type.
Variable OpenAI_new : string -> string -> gmap string string -> OpenAI.
Variable client_baseURL : OpenAI -> string.

Variables Callback Headers AbortSignal ProtocolStream Response : Type.

(** The second argument of [client.chat.completions.create]. *)
Record RequestOptions := {
  req_headers : list (string * string);
  req_signal : option AbortSignal
}.

Record ChatCompetitionOptions := {
  callback : option Callback;
  headers : option Headers;
  signal : option AbortSignal
}.

Variable create :
  OpenAI -> gmap string JsValue -> RequestOptions -> result ErrorObject VendorResponse.
Variable QwenAIStream :
  list Chunk.t -> option Callback -> result ErrorObject ProtocolStream.
Variable StreamingResponse :
  ProtocolStream -> option Headers -> result ErrorObject Response.
Variable handleOpenAIError : ErrorObject -> HandledError.

(** The static catalog of the provider ([Qwen.chatModels]). *)
Variable QwenCard : ModelProviders.ModelProviderCard.

Record LobeQwenAI := {
  this_client : OpenAI;
  this_baseURL : string
}.

(** [if (!apiKey) throw ...]: an absent key and the empty string are both
    falsy.  The default of [baseURL] applies when the option is absent. *)
Definition constructor (options : ClientOptions) : M AgentError LobeQwenAI :=
  let baseURL := default DEFAULT_BASE_URL (baseURL options) in
  match apiKey options with
  | Some key =>
      if String.eqb key "" then throw (createError InvalidProviderAPIKey)
      else
        do! emit (EvNewClient key baseURL (res options)) in
        let client := OpenAI_new key baseURL (res options) in
        ret {| this_client := client; this_baseURL := client_baseURL client |}
  | None => throw (createError InvalidProviderAPIKey)
  end.

Definition models (this : LobeQwenAI)
    : M AgentError (list ModelProviders.ChatModelCard) :=
  ret (ModelProviders.chatModels QwenCard).

(** The [catch] clause of [chat]: what is thrown for a caught [error]. *)
Definition normalize (this : LobeQwenAI) (error : ErrorObject) : AgentError :=
  match err_status error with
  | Some 401%Z =>
      {| endpoint := Some (this_baseURL this);
         error := Caught error;
         errorType := InvalidProviderAPIKey;
         provider := Some Qwen |}
  | _ =>
      let handled := handleOpenAIError error in
      {| endpoint := Some (this_baseURL this);
         error := Inspected (errorResult handled);
         errorType := default ProviderBizError (RuntimeError handled);
         provider := Some Qwen |}
  end.

(** The body of the [try] block.  The two branches of [tee] carry the
    chunks of the source; the debug branch is consumed on its own and a
    rejection of its promise goes to [console.error]. *)
Definition chat_body (proc : Process) (this : LobeQwenAI) (payload : Payload.t)
    (options : option ChatCompetitionOptions) : M ErrorObject Response :=
  let params := buildCompletionParamsByModel payload in
  let init := {| req_headers := [("Accept", "*/*")];
                 req_signal := options ≫= signal |} in
  do! emit (EvCreate params) in
  let! response := lift (create (this_client this) params init) in
  if truthy (get params "stream") then
    match response with
    | LiveStream source =>
        let prod := source in
        let debug := source in
        do! (if decide (env proc !! "DEBUG_QWEN_CHAT_COMPLETION" = Some "1")
             then
               do! emit (EvDebugStream debug) in
               match debugStream proc debug with
               | Some reason => emit (EvConsoleError reason)
               | None => ret tt
               end
             else ret tt) in
        let! stream := lift (QwenAIStream prod (options ≫= callback)) in
        lift (StreamingResponse stream (options ≫= headers))
    | Blocking _ => throw (TypeError "response.tee is not a function")
    end
  else
    match response with
    | Blocking data =>
        let stream := transformResponseToStream data in
        let! stream := lift (QwenAIStream stream (options ≫= callback)) in
        lift (StreamingResponse stream (options ≫= headers))
    | LiveStream _ =>
        throw (TypeError "Cannot read properties of undefined (reading 'map')")
    end.

Definition chat (proc : Process) (this : LobeQwenAI) (payload : Payload.t)
    (options : option ChatCompetitionOptions) : M AgentError Response :=
  try_catch (chat_body proc this payload options)
            (fun error => throw (normalize this error)).

(** The arguments of the vendor call made for a payload. *)
Definition request_init (options : option ChatCompetitionOptions)
    : RequestOptions :=
  {| req_headers := [("Accept", "*/*")]; req_signal := options ≫= signal |}.

End Runtime.

Arguments callback {Callback Headers AbortSignal} _.
Arguments headers {Callback Headers AbortSignal} _.
Arguments signal {Callback Headers AbortSignal} _.
Arguments this_client {OpenAI} _.
Arguments this_baseURL {OpenAI} _.
Arguments Build_LobeQwenAI {OpenAI} _ _.
Arguments constructor {OpenAI} OpenAI_new client_baseURL options.
Arguments models {OpenAI} QwenCard this.
Arguments normalize {OpenAI} handleOpenAIError this error.
Arguments chat_body {OpenAI Callback Headers AbortSignal ProtocolStream Response}
  create QwenAIStream StreamingResponse proc this payload options.
Arguments request_init {Callback Headers AbortSignal} options.
Arguments chat {OpenAI Callback Headers AbortSignal ProtocolStream Response}
  create QwenAIStream StreamingResponse handleOpenAIError proc this payload options.

(** The chunks handed to the transcoder for a vendor response, when the
    response has the shape the streaming mode of the request expects. *)
Definition transcoded (params : gmap string JsValue) (response : VendorResponse)
    : option (list Chunk.t) :=
  match truthy (get params "stream"), response with
  | true, LiveStream source => Some source
  | false, Blocking data => Some (transformResponseToStream data)
  | _, _ => None
  end.

(** * Statements and sample data *)

(** The clamping of [top_p] as the specification words it, for one
    payload: at least one gives 0.999, below one is passed through. *)
Definition top_p_clamped (payload : Payload.t) : Prop :=
  forall x : float,
    Payload.top_p payload = Some x ->
    (JsNumber.ge x 1 = true ->
       buildCompletionParamsByModel payload !! "top_p" = Some (JNum 0.999%float)) /\
    (JsNumber.lt x 1 = true ->
       buildCompletionParamsByModel payload !! "top_p" = Some (JNum x)).

(** The shape of the synthesized stream of [data], with the condition on
    the delta of the second chunk left open: exactly two chunks, each with
    one entry per choice; in the first, [finish_reason] is [null] and the
    delta carries the content and role of the message; in the second,
    [finish_reason] is the one of the choice and the delta satisfies
    [closing]. *)
Definition two_chunk_stream
    (closing : Completion.Choice -> Chunk.Delta -> Prop) (data : Completion.t)
    : Prop :=
  exists first second : Chunk.t,
    transformResponseToStream data = [first; second] /\
    length (Chunk.choices first) = length (Completion.choices data) /\
    length (Chunk.choices second) = length (Completion.choices data) /\
    forall (i : nat) (choice : Completion.Choice),
      Completion.choices data !! i = Some choice ->
      exists c1 c2 : Chunk.Choice,
        Chunk.choices first !! i = Some c1 /\
        Chunk.choices second !! i = Some c2 /\
        Chunk.finish_reason c1 = None /\
        Chunk.content (Chunk.delta c1) =
          Completion.content (Completion.message choice) /\
        Chunk.role (Chunk.delta c1) = Completion.role (Completion.message choice) /\
        Chunk.finish_reason c2 = Some (Completion.finish_reason choice) /\
        closing choice (Chunk.delta c2).

(** The second chunk as the specification words it: content empty or
    absent. *)
Definition empty_content (choice : Completion.Choice) (delta : Chunk.Delta)
    : Prop :=
  Chunk.content delta = None \/ Chunk.content delta = Some "".

(** No condition on the delta of the second chunk. *)
Definition any_content (choice : Completion.Choice) (delta : Chunk.Delta)
    : Prop :=
  True.

(** The content deltas of a chunk, one per entry. *)
Definition contents (chunk : Chunk.t) : list (option string) :=
  Chunk.content ∘ Chunk.delta <$> Chunk.choices chunk.

Definition greeting : Completion.t := {|
  Completion.choices := [
    {| Completion.finish_reason := "stop";
       Completion.index := 0;
       Completion.logprobs := None;
       Completion.message := {|
         Completion.content := Some "Hello";
         Completion.role := "assistant";
         Completion.tool_calls := None |} |} ];
  Completion.created := 1714000000;
  Completion.id := "chatcmpl-1";
  Completion.model := "qwen-turbo";
  Completion.system_fingerprint := None
|}.

(** A completion that asks for two tool calls and has no content. *)
Definition two_calls : Completion.t := {|
  Completion.choices := [
    {| Completion.finish_reason := "tool_calls";
       Completion.index := 0;
       Completion.logprobs := None;
       Completion.message := {|
         Completion.content := None;
         Completion.role := "assistant";
         Completion.tool_calls := Some [
           {| Completion.tc_function :=
                {| fn_name := "get_weather"; fn_arguments := "{}" |};
              Completion.tc_id := "call_a";
              Completion.tc_type := "function" |};
           {| Completion.tc_function :=
                {| fn_name := "get_time"; fn_arguments := "{}" |};
              Completion.tc_id := "call_b";
              Completion.tc_type := "function" |} ] |} |} ];
  Completion.created := 1714000001;
  Completion.id := "chatcmpl-2";
  Completion.model := "qwen-max";
  Completion.system_fingerprint := Some "fp_1"
|}.

(** ** Sample payloads *)

Definition hello : list ChatMessage :=
  [ {| msg_role := "user"; msg_content := "hello" |} ].

Definition weather_tool : ChatCompletionTool :=
  {| tool_type := "function"; tool_name := "get_weather" |}.

(** A vision request asking for the boundary value of [top_p]. *)
Definition vision_payload : Payload.t := {|
  Payload.frequency_penalty := Some 0.5%float;
  Payload.messages := hello;
  Payload.model := "qwen-vl-plus";
  Payload.presence_penalty := Some 0.25%float;
  Payload.stream := Some true;
  Payload.temperature := Some 0.75%float;
  Payload.tools := None;
  Payload.top_p := Some 1%float
|}.

(** A text request with a tool and [top_p] above the boundary. *)
Definition tools_payload : Payload.t := {|
  Payload.frequency_penalty := None;
  Payload.messages := hello;
  Payload.model := "qwen-turbo";
  Payload.presence_penalty := None;
  Payload.stream := Some true;
  Payload.temperature := Some 0.75%float;
  Payload.tools := Some [weather_tool];
  Payload.top_p := Some 1.5%float
|}.

(** A text request without tools, no streaming flag, [top_p] below one. *)
Definition plain_payload : Payload.t := {|
  Payload.frequency_penalty := None;
  Payload.messages := hello;
  Payload.model := "qwen-plus";
  Payload.presence_penalty := None;
  Payload.stream := None;
  Payload.temperature := None;
  Payload.tools := None;
  Payload.top_p := Some 0.5%float
|}.

(** ** A sample world *)

Definition unauthorized : ErrorObject :=
  {| err_name := "AuthenticationError";
     err_message := "401 Incorrect API key provided";
     err_status := Some 401%Z |}.

Definition rate_limited : ErrorObject :=
  {| err_name := "RateLimitError";
     err_message := "429 Requests rate limit exceeded";
     err_status := Some 429%Z |}.

Definition sink_closed : ErrorObject :=
  {| err_name := "Error"; err_message := "debug sink closed"; err_status := None |}.

(** A client that records the key and the base URL it is built with. *)
Definition sample_new (key url : string) (rest : gmap string string)
    : string * string :=
  (key, url).

Definition sample_url (client : string * string) : string := snd client.

Definition failing_create (e : ErrorObject) (client : string * string)
    (params : gmap string JsValue) (init : RequestOptions unit)
    : result ErrorObject VendorResponse :=
  Throw e.

(** A vendor that answers as asked: a live stream of four chunks when
    [stream] is set, the blocking completion otherwise. *)
Definition echo_create (client : string * string)
    (params : gmap string JsValue) (init : RequestOptions unit)
    : result ErrorObject VendorResponse :=
  if truthy (get params "stream")
  then Return (LiveStream (transformResponseToStream greeting ++
                           transformResponseToStream greeting)%list)
  else Return (Blocking greeting).

Definition sample_QwenAIStream (chunks : list Chunk.t) (callback : option unit)
    : result ErrorObject (list Chunk.t) :=
  Return chunks.

Definition broken_QwenAIStream (chunks : list Chunk.t) (callback : option unit)
    : result ErrorObject (list Chunk.t) :=
  Throw (TypeError "stream.pipeThrough is not a function").

Definition sample_StreamingResponse (stream : list Chunk.t)
    (headers : option (gmap string string))
    : result ErrorObject (list Chunk.t * option (gmap string string)) :=
  Return (stream, headers).

Definition sample_handle (e : ErrorObject) : HandledError :=
  {| errorResult := {[ "message" := JStr (err_message e) ]};
     RuntimeError :=
       if String.eqb (err_name e) "TypeError"
       then Some (FinerKind "AgentRuntimeError") else None |}.

Definition sample_this : LobeQwenAI (string * string) :=
  {| this_client := ("sk-1", DEFAULT_BASE_URL); this_baseURL := DEFAULT_BASE_URL |}.

Definition quiet : Process :=
  {| env := ∅; debugStream := fun _ => None |}.

Definition debugging : Process :=
  {| env := {[ "DEBUG_QWEN_CHAT_COMPLETION" := "1" ]};
     debugStream := fun _ => Some sink_closed |}.

Definition no_key : ClientOptions :=
  {| apiKey := None; baseURL := None; res := ∅ |}.

Definition with_key : ClientOptions :=
  {| apiKey := Some "sk-1"; baseURL := None; res := ∅ |}.

(** ** The authentication actions of the user store *)

Module Auth.

(** The two switches of ['@/const/auth']. *)
Record AuthConfig := {
  enableClerk : bool;
  enableNextAuth : bool
}.

(** What the actions read from the store with [get()]: whether each
    optional Clerk action is there. *)
Record UserStore := {
  clerkSignOut : bool;
  clerkSignIn : bool;
  clerkOpenUserProfile : bool
}.

(** An argument of [console.log]: a name made by [n] in the namespace
    ['auth'], or a plain string. *)
Inductive LogValue :=
| Namespaced (namespace type : string)
| Plain (text : string).

Definition n (type : string) : LogValue := Namespaced "auth" type.

(** The calls an action makes, in order. *)
Inductive Call :=
| ConsoleLog (args : list LogValue)
| NextAuthSignIn
| NextAuthSignOut
| ClerkSignOut (redirectUrl : string)
| ClerkSignIn (fallbackRedirectUrl : string)
| ClerkOpenUserProfile.

(** [store.action?.(...)]: the call is made when the action is there. *)
Definition optional_call (present : bool) (call : Call) : list Call :=
  if present then [call] else [].

Definition getUserConfig : list Call :=
  [ConsoleLog [n "userconfig"]].

Definition login : list Call :=
  [ConsoleLog [n "login"]; NextAuthSignIn].

Definition logout (config : AuthConfig) (store : UserStore) (location : string)
    : list Call :=
  if enableClerk config then
    optional_call (clerkSignOut store) (ClerkSignOut location)
  else
    [ConsoleLog [n "logout"]; NextAuthSignOut].

Definition openLogin (config : AuthConfig) (store : UserStore) (location : string)
    : list Call :=
  if enableClerk config then
    ConsoleLog [Plain "fallbackRedirectUrl:"; Plain location] ::
    optional_call (clerkSignIn store) (ClerkSignIn location)
  else
    [NextAuthSignIn].

Definition openUserProfile (config : AuthConfig) (store : UserStore) : list Call :=
  if enableClerk config then
    optional_call (clerkOpenUserProfile store) ClerkOpenUserProfile
  else if enableNextAuth config then []
  else [].

Definition is_next_auth (call : Call) : bool :=
  match call with
  | NextAuthSignIn | NextAuthSignOut => true
  | _ => false
  end.

Definition is_clerk (call : Call) : bool :=
  match call with
  | ClerkSignOut _ | ClerkSignIn _ | ClerkOpenUserProfile => true
  | _ => false
  end.

Definition is_sign_out (call : Call) : bool :=
  match call with
  | NextAuthSignOut | ClerkSignOut _ => true
  | _ => false
  end.

End Auth.

(** ** The upload button *)

Module FileUpload.

(** The steps of [beforeUpload], in order. *)
Inductive Step :=
| SetLoading (loading : bool)
| Upload (file : string).

(** What the button shows. *)
Inductive View :=
| Spinner
| UploadIcon.

Definition is_upload (step : Step) : bool :=
  match step with
  | Upload _ => true
  | SetLoading _ => false
  end.

Definition render (loading : bool) : View :=
  if loading then Spinner else UploadIcon.

(** [beforeUpload]: the steps made, the value of [loading] afterwards, and
    the value the promise resolves to or the error it rejects with.
    [upload] is the outcome of awaiting the store's [uploadFile]. *)
Definition beforeUpload (upload : string -> result ErrorObject unit)
    (file : string) (loading : bool)
    : list Step * bool * result ErrorObject bool :=
  match upload file with
  | Return _ =>
      ([SetLoading true; Upload file; SetLoading false], false, Return false)
  | Throw e =>
      ([SetLoading true; Upload file], true, Throw e)
  end.

End FileUpload.

(** ** Further sample data *)

(** A text request whose [top_p] is not a number. *)
Definition nan_payload : Payload.t := {|
  Payload.frequency_penalty := None;
  Payload.messages := hello;
  Payload.model := "qwen-max";
  Payload.presence_penalty := None;
  Payload.stream := Some false;
  Payload.temperature := None;
  Payload.tools := Some [];
  Payload.top_p := Some PrimFloat.nan
|}.

(** A text request that leaves every optional property out. *)
Definition bare_payload : Payload.t := {|
  Payload.frequency_penalty := None;
  Payload.messages := hello;
  Payload.model := "Qwen-VL-Plus";
  Payload.presence_penalty := None;
  Payload.stream := None;
  Payload.temperature := None;
  Payload.tools := None;
  Payload.top_p := None
|}.

(** The properties a request object may get from the builder itself. *)
Definition written_keys : gset string := {[ "top_p"; "stream"; "result_format" ]}.

(** The events of the debug branch of [chat] for a live stream: nothing
    unless the toggle is ["1"]; else the start of the sink, followed by the
    report of its failure when it fails. *)
Definition debug_events (proc : Process) (source : list Chunk.t) : list Event :=
  if decide (env proc !! "DEBUG_QWEN_CHAT_COMPLETION" = Some "1")
  then EvDebugStream source ::
       match debugStream proc source with
       | Some reason => [EvConsoleError reason]
       | None => []
       end
  else [].

(** A vendor that streams whatever it is asked. *)
Definition stubborn_create (client : string * string)
    (params : gmap string JsValue) (init : RequestOptions unit)
    : result ErrorObject VendorResponse :=
  Return (LiveStream (transformResponseToStream greeting)).

(** An upload that always fails. *)
Definition rejecting_upload (file : string) : result ErrorObject unit :=
  Throw sink_closed.

(** A process whose toggle has another value than ["1"]. *)
Definition half_debugging : Process :=
  {| env := {[ "DEBUG_QWEN_CHAT_COMPLETION" := "true" ]};
     debugStream := fun _ => Some sink_closed |}.

(** * Facts on numbers *)

Module NumberFacts.

(** The two constants the comparisons below meet, as IEEE-754 values. *)
Lemma one_sf : Prim2SF 1%float = S754_finite false 4503599627370496 (-52).
Proof. vm_compute. reflexivity. Qed.

Lemma zero_sf : Prim2SF 0%float = S754_zero false.
Proof. vm_compute. reflexivity. Qed.

Lemma SFleb_finite_pos (m1 : positive) (e1 : Z) (x : spec_float) :
  SFleb (S754_finite false m1 e1) x = true ->
  SFeqb x (S754_zero false) = false /\ SFeqb x x = true.
Proof.
  unfold SFleb, SFeqb.
  destruct x as [s | [|] | | [|] m e]; cbn [SFcompare]; try discriminate; auto.
  intros _. split; [reflexivity|].
  fold (Pos.compare m m). rewrite Z.compare_refl, Pos.compare_refl. reflexivity.
Qed.

Lemma SFltb_finite_pos (m1 : positive) (e1 : Z) (x : spec_float) :
  SFltb x (S754_finite false m1 e1) = true ->
  SFleb (S754_finite false m1 e1) x = false.
Proof.
  unfold SFleb, SFltb.
  destruct x as [s | [|] | | [|] m e]; cbn [SFcompare]; try discriminate; auto.
  fold (Pos.compare m m1). fold (Pos.compare m1 m).
  rewrite (Z.compare_antisym e e1).
  destruct (e ?= e1)%Z; cbn [CompOpp]; try discriminate; auto.
  rewrite (Pos.compare_antisym m m1).
  destruct (m ?= m1)%positive; cbn [CompOpp]; try discriminate; auto.
Qed.

(** A number that is at least one is truthy: the guard of
    [top_p && top_p >= 1] never changes the outcome of [top_p >= 1]. *)
Lemma ge_one_truthy (x : float) :
  JsNumber.ge x 1 = true -> JsNumber.truthy x = true.
Proof.
  unfold JsNumber.ge, JsNumber.truthy, PrimFloat.is_zero, PrimFloat.is_nan, PrimFloat.zero.
  rewrite FloatAxioms.leb_spec, !FloatAxioms.eqb_spec, one_sf, zero_sf.
  intros H. destruct (SFleb_finite_pos _ _ _ H) as [Hz Hn].
  rewrite Hz, Hn. reflexivity.
Qed.

(** [x < 1] excludes [x >= 1]. *)
Lemma lt_one_not_ge (x : float) :
  JsNumber.lt x 1 = true -> JsNumber.ge x 1 = false.
Proof.
  unfold JsNumber.ge, JsNumber.lt.
  rewrite FloatAxioms.leb_spec, FloatAxioms.ltb_spec, one_sf.
  apply SFltb_finite_pos.
Qed.

End NumberFacts.

(** * Properties of the request builder *)

Module Builder.

Lemma lookup_omit (obj : gmap string JsValue) (paths : list string) (k : string) :
  omit obj paths !! k = if decide (k ∈ paths) then None else obj !! k.
Proof.
  induction paths as [|q paths IH];
    change (omit obj ?l) with (foldr delete obj l) in *; cbn [foldr].
  - destruct (decide (k ∈ [])) as [Hin|_]; [by apply elem_of_nil in Hin | reflexivity].
  - destruct (decide (q = k)) as [->|Hne].
    + rewrite lookup_delete_eq.
      destruct (decide (k ∈ k :: paths)) as [_|Hnin]; [reflexivity|].
      exfalso. apply Hnin, list_elem_of_here.
    + rewrite lookup_delete_ne by exact Hne. rewrite IH.
      destruct (decide (k ∈ paths)) as [Hin|Hnin];
        destruct (decide (k ∈ q :: paths)) as [Hin'|Hnin']; try reflexivity.
      * exfalso. by apply Hnin', list_elem_of_further.
      * exfalso. apply elem_of_cons in Hin' as [->|?]; [by apply Hne | by apply Hnin].
Qed.

Lemma lookup_set_own {A : Type} (k k' : string) (inj : A -> JsValue)
    (o : option A) (obj : gmap string JsValue) :
  set_own k inj o obj !! k' =
    if decide (k = k') then
      match o with Some a => Some (inj a) | None => obj !! k' end
    else obj !! k'.
Proof.
  destruct o as [a|]; simpl.
  - rewrite lookup_insert. reflexivity.
  - destruct (decide (k = k')); reflexivity.
Qed.

Lemma build_vision (payload : Payload.t) :
  startsWith (Payload.model payload) "qwen-vl" = true ->
  buildCompletionParamsByModel payload = omit (params_of payload) vision_unsupported.
Proof. intros H. unfold buildCompletionParamsByModel. rewrite H. reflexivity. Qed.

Lemma build_text (payload : Payload.t) :
  startsWith (Payload.model payload) "qwen-vl" = false ->
  buildCompletionParamsByModel payload = params_of payload.
Proof. intros H. unfold buildCompletionParamsByModel. rewrite H. reflexivity. Qed.

Lemma params_stream (payload : Payload.t) :
  params_of payload !! "stream" =
    Some (JBool (if has_tools (Payload.tools payload) then false
                 else default true (Payload.stream payload))).
Proof.
  unfold params_of. rewrite lookup_insert_ne by discriminate.
  apply lookup_insert_eq.
Qed.

Lemma build_stream (payload : Payload.t) :
  buildCompletionParamsByModel payload !! "stream" =
    Some (JBool (if has_tools (Payload.tools payload) then false
                 else default true (Payload.stream payload))).
Proof.
  destruct (startsWith (Payload.model payload) "qwen-vl") eqn:Hv.
  - rewrite build_vision by exact Hv. rewrite lookup_omit.
    destruct (decide ("stream" ∈ vision_unsupported)) as [Hin|_];
      [|apply params_stream].
    unfold vision_unsupported in Hin.
    rewrite !elem_of_cons, elem_of_nil in Hin.
    repeat (destruct Hin as [Hin|Hin]); discriminate || contradiction.
  - rewrite build_text by exact Hv. apply params_stream.
Qed.

Lemma clamp_ge (x : float) :
  JsNumber.ge x 1 = true -> clamp_top_p (Some x) = JNum 0.999%float.
Proof.
  intros H. unfold clamp_top_p.
  rewrite (NumberFacts.ge_one_truthy x H), H. reflexivity.
Qed.

Lemma clamp_lt (x : float) :
  JsNumber.lt x 1 = true -> clamp_top_p (Some x) = JNum x.
Proof.
  intros H. unfold clamp_top_p.
  rewrite (NumberFacts.lt_one_not_ge x H), andb_false_r. reflexivity.
Qed.

Lemma spread_messages (payload : Payload.t) :
  spread payload !! "messages" = Some (JMessages (Payload.messages payload)).
Proof.
  unfold spread. rewrite lookup_set_own.
  destruct (decide ("frequency_penalty" = "messages")); [discriminate|].
  apply lookup_insert_eq.
Qed.

Lemma spread_result_format (payload : Payload.t) :
  spread payload !! "result_format" = None.
Proof.
  unfold spread.
  repeat first
    [ rewrite lookup_set_own; case_decide; [discriminate|]
    | rewrite lookup_insert_ne by discriminate ].
  apply lookup_empty.
Qed.

(** Outside the three keys it writes, the builder leaves a text request as
    the spread made it. *)
Lemma params_other (payload : Payload.t) (k : string) :
  k <> "top_p" -> k <> "stream" -> k <> "result_format" ->
  params_of payload !! k = spread payload !! k.
Proof.
  intros Ht Hs Hr. unfold params_of.
  rewrite !lookup_insert_ne by congruence.
  destruct (decide (k = "messages")) as [->|Hm].
  - rewrite lookup_insert_eq, spread_messages. reflexivity.
  - rewrite lookup_insert_ne by congruence. reflexivity.
Qed.

End Builder.

(** ** Claims on the request builder *)

(** C2, as stated, fails: a vision request with [top_p = 1] is built
    without any [top_p], not with 0.999. *)
Lemma top_p_clamped_fails_for_vision : ~ top_p_clamped vision_payload.
Proof.
  intros H. destruct (H 1%float eq_refl) as [Hge _].
  specialize (Hge eq_refl). vm_compute in Hge. discriminate Hge.
Qed.

(** C2 (amended): for every payload whose model is not of the vision
    family, [top_p >= 1] is replaced by 0.999 in the built request and
    [top_p < 1] is passed through unchanged. *)
Theorem top_p_clamped_for_text_models (payload : Payload.t) :
  startsWith (Payload.model payload) "qwen-vl" = false ->
  top_p_clamped payload.
Proof.
  intros Hv x Hx. rewrite (Builder.build_text payload Hv).
  unfold params_of. rewrite lookup_insert_eq, Hx.
  split; intros H.
  - rewrite (Builder.clamp_ge x H). reflexivity.
  - rewrite (Builder.clamp_lt x H). reflexivity.
Qed.

Lemma top_p_clamped_for_text_models_witness :
  buildCompletionParamsByModel tools_payload !! "top_p" = Some (JNum 0.999%float) /\
  buildCompletionParamsByModel plain_payload !! "top_p" = Some (JNum 0.5%float).
Proof.
  split.
  - apply (top_p_clamped_for_text_models tools_payload eq_refl 1.5%float eq_refl).
    reflexivity.
  - apply (top_p_clamped_for_text_models plain_payload eq_refl 0.5%float eq_refl).
    reflexivity.
Defined.

(** C3: a non-empty tools list forces [stream = false] in the built
    request whatever flag was requested; without tools the request's
    [stream] is the requested flag, and [true] when the flag is absent. *)
Theorem stream_forced_off_by_tools (payload : Payload.t) :
  (forall tool rest,
     Payload.tools payload = Some (tool :: rest) ->
     buildCompletionParamsByModel payload !! "stream" = Some (JBool false)) /\
  (Payload.tools payload = None \/ Payload.tools payload = Some [] ->
     buildCompletionParamsByModel payload !! "stream" =
       Some (JBool (default true (Payload.stream payload)))).
Proof.
  rewrite Builder.build_stream. split.
  - intros tool rest ->. reflexivity.
  - intros [-> | ->]; reflexivity.
Qed.

Lemma stream_forced_off_by_tools_witness :
  buildCompletionParamsByModel tools_payload !! "stream" = Some (JBool false) /\
  buildCompletionParamsByModel plain_payload !! "stream" = Some (JBool true).
Proof.
  split.
  - exact (proj1 (stream_forced_off_by_tools tools_payload) weather_tool [] eq_refl).
  - exact (proj2 (stream_forced_off_by_tools plain_payload) (or_introl eq_refl)).
Defined.

(** C4: for a model id that starts with [qwen-vl], the built request has
    none of [presence_penalty], [frequency_penalty], [temperature],
    [top_p] and [result_format]. *)
Theorem vision_request_omits_unsupported (payload : Payload.t) :
  startsWith (Payload.model payload) "qwen-vl" = true ->
  buildCompletionParamsByModel payload !! "presence_penalty" = None /\
  buildCompletionParamsByModel payload !! "frequency_penalty" = None /\
  buildCompletionParamsByModel payload !! "temperature" = None /\
  buildCompletionParamsByModel payload !! "top_p" = None /\
  buildCompletionParamsByModel payload !! "result_format" = None.
Proof.
  intros Hv. rewrite (Builder.build_vision payload Hv).
  assert (Hin : forall k, k ∈ vision_unsupported ->
            omit (params_of payload) vision_unsupported !! k = None).
  { intros k Hk. rewrite Builder.lookup_omit.
    destruct (decide (k ∈ vision_unsupported)); [reflexivity | contradiction]. }
  repeat split; apply Hin; unfold vision_unsupported; set_solver.
Qed.

Lemma vision_request_omits_unsupported_witness :
  buildCompletionParamsByModel vision_payload !! "presence_penalty" = None /\
  buildCompletionParamsByModel vision_payload !! "frequency_penalty" = None /\
  buildCompletionParamsByModel vision_payload !! "temperature" = None /\
  buildCompletionParamsByModel vision_payload !! "top_p" = None /\
  buildCompletionParamsByModel vision_payload !! "result_format" = None.
Proof. exact (vision_request_omits_unsupported vision_payload eq_refl). Defined.

(** C10: for a model outside the vision family the builder returns a
    request (it has no failing path) in which every property of the
    payload other than [stream] and [top_p] keeps its value,
    [result_format] is ['message'], and no property of the payload is
    missing. *)
Theorem text_request_keeps_payload (payload : Payload.t) :
  startsWith (Payload.model payload) "qwen-vl" = false ->
  (forall k v,
     spread payload !! k = Some v -> k <> "stream" -> k <> "top_p" ->
     buildCompletionParamsByModel payload !! k = Some v) /\
  buildCompletionParamsByModel payload !! "result_format" = Some (JStr "message") /\
  (forall k,
     is_Some (spread payload !! k) ->
     is_Some (buildCompletionParamsByModel payload !! k)).
Proof.
  intros Hv. rewrite (Builder.build_text payload Hv).
  assert (Hkeep : forall k v,
            spread payload !! k = Some v -> k <> "stream" -> k <> "top_p" ->
            params_of payload !! k = Some v).
  { intros k v Hk Hs Ht. rewrite Builder.params_other; auto.
    intros ->. rewrite Builder.spread_result_format in Hk. discriminate Hk. }
  split; [exact Hkeep|]. split.
  - unfold params_of. rewrite !lookup_insert_ne by discriminate.
    apply lookup_insert_eq.
  - intros k [v Hk].
    destruct (decide (k = "top_p")) as [->|Ht].
    { unfold params_of. rewrite lookup_insert_eq. eauto. }
    destruct (decide (k = "stream")) as [->|Hs].
    { rewrite Builder.params_stream. eauto. }
    exists v. apply Hkeep; assumption.
Qed.

Lemma text_request_keeps_payload_witness :
  buildCompletionParamsByModel tools_payload !! "tools" = Some (JTools [weather_tool]) /\
  buildCompletionParamsByModel tools_payload !! "result_format" = Some (JStr "message") /\
  is_Some (buildCompletionParamsByModel tools_payload !! "temperature").
Proof.
  destruct (text_request_keeps_payload tools_payload eq_refl) as (Hkeep & Hfmt & Hdom).
  split; [|split].
  - apply Hkeep; [reflexivity | discriminate | discriminate].
  - exact Hfmt.
  - apply Hdom. exists (JNum 0.75%float). reflexivity.
Defined.

(** ** Claims on the synthesized stream *)

(** The tool calls of the first chunk are numbered by their position. *)
Lemma mapi_from_lookup {A B : Type} (f : A -> nat -> B) (l : list A)
    (start i : nat) (x : A) :
  l !! i = Some x -> mapi_from f start l !! i = Some (f x (start + i)%nat).
Proof.
  revert start i. induction l as [|y l IH]; intros start i Hi; [discriminate Hi|].
  destruct i as [|i]; cbn [mapi_from].
  - injection Hi as ->. rewrite Nat.add_0_r. reflexivity.
  - change ((y :: l) !! S i) with (l !! i) in Hi.
    change (mapi_from f (S start) l !! i = Some (f x (start + S i)%nat)).
    rewrite (IH (S start) i Hi), Nat.add_succ_r. reflexivity.
Qed.

Lemma tool_call_index (tools : list Completion.ToolCall) (i : nat)
    (tool : Completion.ToolCall) :
  tools !! i = Some tool ->
  Chunk.tc_index <$> (mapi delta_tool_call tools !! i) = Some i.
Proof.
  intros Hi. unfold mapi. rewrite (mapi_from_lookup _ _ 0 i tool Hi).
  reflexivity.
Qed.

Example two_calls_stream :
  (fun chunk => Chunk.tool_calls ∘ Chunk.delta <$> Chunk.choices chunk)
    <$> transformResponseToStream two_calls =
  [ [ Some [ {| Chunk.tc_function := {| fn_name := "get_weather"; fn_arguments := "{}" |};
                Chunk.tc_id := "call_a"; Chunk.tc_index := 0;
                Chunk.tc_type := "function" |};
             {| Chunk.tc_function := {| fn_name := "get_time"; fn_arguments := "{}" |};
                Chunk.tc_id := "call_b"; Chunk.tc_index := 1;
                Chunk.tc_type := "function" |} ] ];
    [ None ] ].
Proof. reflexivity. Qed.

(** C1 (defect of the code): the claim asks for a second chunk with
    empty or absent content, and the code does not deliver it.  For the
    completion whose only choice says "Hello" and stops, the stream has
    two chunks; the first says "Hello" with [finish_reason = null]; the
    second has [finish_reason = "stop"] and says "Hello" once more, so
    the stream does not have the shape the claim states. *)
Theorem second_chunk_content_not_empty :
  contents <$> transformResponseToStream greeting =
    [ [Some "Hello"]; [Some "Hello"] ] /\
  (fun chunk => Chunk.finish_reason <$> Chunk.choices chunk)
    <$> transformResponseToStream greeting =
    [ [None]; [Some "stop"] ] /\
  ~ two_chunk_stream empty_content greeting.
Proof.
  split; [reflexivity|]. split; [reflexivity|].
  intros (first & second & Hs & _ & _ & Hall).
  injection Hs as <- <-.
  destruct (Hall 0%nat _ eq_refl) as (c1 & c2 & _ & H2 & _ & _ & _ & _ & Hc).
  injection H2 as <-.
  destruct Hc as [Hc|Hc]; discriminate Hc.
Qed.

(** What the stream does have of that shape, for every completion: two
    chunks of one entry per choice; [finish_reason = null] and the content
    and role of the message in the first; the [finish_reason] of the
    choice in the second. *)
Lemma synthesized_stream_shape (data : Completion.t) :
  two_chunk_stream any_content data.
Proof.
  unfold two_chunk_stream, transformResponseToStream.
  eexists _, _. split; [reflexivity|]. cbn [Chunk.choices].
  rewrite !length_fmap. split; [reflexivity|]. split; [reflexivity|].
  intros i choice Hi.
  exists (content_choice choice), (finish_choice choice).
  rewrite !list_lookup_fmap, Hi.
  repeat split; reflexivity.
Qed.

(** * Properties of the runtime *)

Section RuntimeProperties.

Context {OpenAI Callback Headers AbortSignal ProtocolStream Response : Type}.
Context (OpenAI_new : string -> string -> gmap string string -> OpenAI).
Context (client_baseURL : OpenAI -> string).
Context (create :
  OpenAI -> gmap string JsValue -> RequestOptions AbortSignal ->
  result ErrorObject VendorResponse).
Context (QwenAIStream :
  list Chunk.t -> option Callback -> result ErrorObject ProtocolStream).
Context (StreamingResponse :
  ProtocolStream -> option Headers -> result ErrorObject Response).
Context (handleOpenAIError : ErrorObject -> HandledError).

Implicit Types (proc : Process) (this : LobeQwenAI OpenAI) (payload : Payload.t).
Implicit Types (options : option (ChatCompetitionOptions Callback Headers AbortSignal)).

Lemma normalize_endpoint this (e : ErrorObject) :
  endpoint (normalize handleOpenAIError this e) = Some (this_baseURL this) /\
  provider (normalize handleOpenAIError this e) = Some Qwen.
Proof.
  unfold normalize.
  destruct (err_status e) as [[|p|p]|]; try (split; reflexivity).
  destruct (decide (p = 401%positive)) as [->|Hp]; [split; reflexivity|].
  repeat (destruct p as [p|p|]; try (split; reflexivity)).
Qed.

Lemma normalize_unauthorized this (e : ErrorObject) :
  err_status e = Some 401%Z ->
  errorType (normalize handleOpenAIError this e) = InvalidProviderAPIKey.
Proof. intros H. unfold normalize. rewrite H. reflexivity. Qed.

Lemma normalize_other this (e : ErrorObject) :
  err_status e <> Some 401%Z ->
  errorType (normalize handleOpenAIError this e) =
    default ProviderBizError (RuntimeError (handleOpenAIError e)).
Proof.
  intros H. unfold normalize.
  destruct (err_status e) as [[|p|p]|]; try reflexivity.
  repeat (destruct p as [p|p|]; try reflexivity).
  contradiction H. reflexivity.
Qed.

(** The result of [chat] is the result of its [try] block, a thrown value
    replaced by its normal form; the log is the one of the block. *)
Lemma chat_of_body proc this payload options :
  chat create QwenAIStream StreamingResponse handleOpenAIError
       proc this payload options =
  match chat_body create QwenAIStream StreamingResponse proc this payload options with
  | (log, Return r) => (log, Return r)
  | (log, Throw e) => (log, Throw (normalize handleOpenAIError this e))
  end.
Proof.
  unfold chat, try_catch.
  destruct (chat_body _ _ _ _ _ _ _) as [log [r|e]]; [reflexivity|].
  unfold throw. rewrite app_nil_r. reflexivity.
Qed.

(** The outcome of the [try] block, step by step. *)
Lemma body_outcome proc this payload options :
  snd (chat_body create QwenAIStream StreamingResponse proc this payload options) =
  match create (this_client this) (buildCompletionParamsByModel payload)
               (request_init options) with
  | Throw e => Throw e
  | Return response =>
      match transcoded (buildCompletionParamsByModel payload) response with
      | None =>
          Throw (TypeError
            (if truthy (get (buildCompletionParamsByModel payload) "stream")
             then "response.tee is not a function"
             else "Cannot read properties of undefined (reading 'map')"))
      | Some chunks =>
          match QwenAIStream chunks (options ≫= callback) with
          | Throw e => Throw e
          | Return stream => StreamingResponse stream (options ≫= headers)
          end
      end
  end.
Proof.
  unfold chat_body, transcoded, request_init.
  destruct (create _ _ _) as [response|e]; [|reflexivity].
  destruct (truthy _), response as [source|data]; try reflexivity.
  - cbn [emit bind lift ret].
    destruct (decide _) as [Hon|Hoff];
      [destruct (debugStream proc source) as [reason|]|];
      cbn [emit bind lift ret];
      (destruct (QwenAIStream _ _) as [stream|e]; [|reflexivity]);
      destruct (StreamingResponse _ _); reflexivity.
  - cbn [emit bind lift]. destruct (QwenAIStream _ _) as [stream|e]; [|reflexivity].
    destruct (StreamingResponse _ _); reflexivity.
Qed.

Lemma chat_outcome proc this payload options :
  snd (chat create QwenAIStream StreamingResponse handleOpenAIError
            proc this payload options) =
  match snd (chat_body create QwenAIStream StreamingResponse
                       proc this payload options) with
  | Return r => Return r
  | Throw e => Throw (normalize handleOpenAIError this e)
  end.
Proof.
  rewrite chat_of_body.
  destruct (chat_body _ _ _ _ _ _ _) as [log [r|e]]; reflexivity.
Qed.

(** ** Claims on [chat], the constructor and [models] *)

(** C5: when the vendor call throws, [chat] throws a runtime error whose
    kind is [InvalidProviderAPIKey] if the error carries status 401;
    otherwise the kind is the finer one given by [handleOpenAIError] when
    there is one, and [ProviderBizError] when there is none. *)
Theorem vendor_error_classification proc this payload options (e : ErrorObject) :
  create (this_client this) (buildCompletionParamsByModel payload)
         (request_init options) = Throw e ->
  exists err : AgentError,
    snd (chat create QwenAIStream StreamingResponse handleOpenAIError
              proc this payload options) = Throw err /\
    (err_status e = Some 401%Z -> errorType err = InvalidProviderAPIKey) /\
    (err_status e <> Some 401%Z ->
       RuntimeError (handleOpenAIError e) = None ->
       errorType err = ProviderBizError) /\
    (err_status e <> Some 401%Z ->
       forall kind, RuntimeError (handleOpenAIError e) = Some kind ->
       errorType err = kind).
Proof.
  intros Hcreate. exists (normalize handleOpenAIError this e).
  split; [rewrite chat_outcome, body_outcome, Hcreate; reflexivity|].
  split; [apply normalize_unauthorized|].
  split.
  - intros Hs Hnone. rewrite (normalize_other this e Hs), Hnone. reflexivity.
  - intros Hs kind Hkind. rewrite (normalize_other this e Hs), Hkind. reflexivity.
Qed.

(** C6: whichever step of [chat] fails (the vendor call, the set-up of the
    stream for a response of the wrong shape, the transcoder, the
    streaming response), the outcome is one thrown runtime error, the
    normal form of the failure, which carries the base URL of the runtime
    as endpoint and the provider id; a value is returned only when every
    step has succeeded, and it is then the full response.  Building the
    request is a total function and has no failure of its own. *)
Theorem chat_failure_rethrown_once proc this payload options :
  let params := buildCompletionParamsByModel payload in
  let outcome :=
    snd (chat create QwenAIStream StreamingResponse handleOpenAIError
              proc this payload options) in
  let failed e := outcome = Throw (normalize handleOpenAIError this e) in
  (forall e,
     create (this_client this) params (request_init options) = Throw e ->
     failed e) /\
  (forall response,
     create (this_client this) params (request_init options) = Return response ->
     transcoded params response = None ->
     exists e, failed e) /\
  (forall response chunks e,
     create (this_client this) params (request_init options) = Return response ->
     transcoded params response = Some chunks ->
     QwenAIStream chunks (options ≫= callback) = Throw e ->
     failed e) /\
  (forall response chunks stream e,
     create (this_client this) params (request_init options) = Return response ->
     transcoded params response = Some chunks ->
     QwenAIStream chunks (options ≫= callback) = Return stream ->
     StreamingResponse stream (options ≫= headers) = Throw e ->
     failed e) /\
  (forall e,
     endpoint (normalize handleOpenAIError this e) = Some (this_baseURL this) /\
     provider (normalize handleOpenAIError this e) = Some Qwen) /\
  (forall r,
     outcome = Return r ->
     exists response chunks stream,
       create (this_client this) params (request_init options) = Return response /\
       transcoded params response = Some chunks /\
       QwenAIStream chunks (options ≫= callback) = Return stream /\
       StreamingResponse stream (options ≫= headers) = Return r).
Proof.
  intros params outcome failed. subst failed outcome params.
  rewrite chat_outcome, body_outcome.
  repeat apply conj.
  - intros e ->. reflexivity.
  - intros response -> ->. eexists. reflexivity.
  - intros response chunks e -> -> ->. reflexivity.
  - intros response chunks stream e -> -> -> ->. reflexivity.
  - intros e. apply normalize_endpoint.
  - intros r.
    destruct (create _ _ _) as [response|e] eqn:Hc; [|discriminate].
    destruct (transcoded _ response) as [chunks|] eqn:Ht; [|discriminate].
    destruct (QwenAIStream _ _) as [stream|e] eqn:Hq; [|discriminate].
    destruct (StreamingResponse _ _) as [r'|e] eqn:Hr; [|discriminate].
    intros [= <-]. exists response, chunks, stream.
    repeat split; reflexivity || assumption.
Qed.

(** C7: with an absent (or empty, hence falsy) API key the constructor
    throws [InvalidProviderAPIKey] at once: no client has been built and no
    call made.  With a non-empty API key it builds the client and
    succeeds; it passes [DEFAULT_BASE_URL] to the client when no base URL is
    given, and the base URL of the runtime is the one the client reports. *)
Theorem constructor_requires_api_key (options : ClientOptions) :
  (apiKey options = None \/ apiKey options = Some "" ->
     constructor OpenAI_new client_baseURL options =
       ([], Throw (createError InvalidProviderAPIKey))) /\
  (forall key,
     apiKey options = Some key -> key <> "" ->
     let url := default DEFAULT_BASE_URL (baseURL options) in
     let this := {| this_client := OpenAI_new key url (res options);
                    this_baseURL := client_baseURL (OpenAI_new key url (res options)) |} in
     constructor OpenAI_new client_baseURL options =
       ([EvNewClient key url (res options)], Return this) /\
     (baseURL options = None ->
      client_baseURL (OpenAI_new key DEFAULT_BASE_URL (res options)) = DEFAULT_BASE_URL ->
      this_baseURL this = DEFAULT_BASE_URL)).
Proof.
  unfold constructor. split.
  - intros [-> | ->]; reflexivity.
  - intros key -> Hkey. cbv zeta.
    apply String.eqb_neq in Hkey. rewrite Hkey. split; [reflexivity|].
    intros -> Hsdk. exact Hsdk.
Qed.

(** C8: the response returned (or the error thrown) by [chat] is the same
    for any two processes, that is, whatever the value of the debug toggle
    and whether or not the debug sink fails. *)
Theorem debug_toggle_keeps_response proc proc' this payload options :
  snd (chat create QwenAIStream StreamingResponse handleOpenAIError
            proc this payload options) =
  snd (chat create QwenAIStream StreamingResponse handleOpenAIError
            proc' this payload options).
Proof. rewrite !chat_outcome, !body_outcome. reflexivity. Qed.

(** C9: [models] returns the [chatModels] table of the provider card as
    it is, and performs no effect: its log of events is empty and the
    runtime is only read. *)
Theorem models_returns_catalog (QwenCard : ModelProviders.ModelProviderCard) this :
  snd (models QwenCard this) = Return (ModelProviders.chatModels QwenCard) /\
  fst (models QwenCard this) = [].
Proof. unfold models, ret. split; reflexivity. Qed.

End RuntimeProperties.

(** ** The claims at the sample world *)

Lemma vendor_error_classification_witness :
  (exists err : AgentError,
     snd (chat (failing_create unauthorized) sample_QwenAIStream
               sample_StreamingResponse sample_handle
               quiet sample_this tools_payload None) = Throw err /\
     errorType err = InvalidProviderAPIKey) /\
  (exists err : AgentError,
     snd (chat (failing_create rate_limited) sample_QwenAIStream
               sample_StreamingResponse sample_handle
               quiet sample_this tools_payload None) = Throw err /\
     errorType err = ProviderBizError).
Proof.
  split.
  - destruct (vendor_error_classification
                (failing_create unauthorized) sample_QwenAIStream
                sample_StreamingResponse sample_handle
                quiet sample_this tools_payload None unauthorized eq_refl)
      as (err & Hchat & H401 & _).
    exists err. split; [exact Hchat | apply H401; reflexivity].
  - destruct (vendor_error_classification
                (failing_create rate_limited) sample_QwenAIStream
                sample_StreamingResponse sample_handle
                quiet sample_this tools_payload None rate_limited eq_refl)
      as (err & Hchat & _ & Hbiz & _).
    exists err. split; [exact Hchat | apply Hbiz; [discriminate | reflexivity]].
Defined.

Lemma chat_failure_rethrown_once_witness :
  snd (chat (failing_create rate_limited) sample_QwenAIStream
            sample_StreamingResponse sample_handle
            quiet sample_this plain_payload None) =
    Throw (normalize sample_handle sample_this rate_limited) /\
  snd (chat echo_create broken_QwenAIStream
            sample_StreamingResponse sample_handle
            debugging sample_this plain_payload None) =
    Throw (normalize sample_handle sample_this
             (TypeError "stream.pipeThrough is not a function")) /\
  (exists response chunks stream,
     echo_create (this_client sample_this)
       (buildCompletionParamsByModel tools_payload)
       (@request_init unit (gmap string string) unit None) =
       Return response /\
     transcoded (buildCompletionParamsByModel tools_payload) response = Some chunks /\
     sample_QwenAIStream chunks None = Return stream /\
     sample_StreamingResponse stream None =
       Return (transformResponseToStream greeting, None)).
Proof.
  split; [|split].
  - apply (proj1 (chat_failure_rethrown_once
                    (failing_create rate_limited) sample_QwenAIStream
                    sample_StreamingResponse sample_handle
                    quiet sample_this plain_payload None)).
    reflexivity.
  - destruct (chat_failure_rethrown_once
                echo_create broken_QwenAIStream
                sample_StreamingResponse sample_handle
                debugging sample_this plain_payload None)
      as (_ & _ & Htranscoder & _).
    eapply Htranscoder; reflexivity.
  - destruct (chat_failure_rethrown_once
                echo_create sample_QwenAIStream
                sample_StreamingResponse sample_handle
                debugging sample_this tools_payload None)
      as (_ & _ & _ & _ & _ & Hreturn).
    apply Hreturn. reflexivity.
Defined.

Lemma constructor_requires_api_key_witness :
  constructor sample_new sample_url no_key =
    ([], Throw (createError InvalidProviderAPIKey)) /\
  constructor sample_new sample_url with_key =
    ([EvNewClient "sk-1" DEFAULT_BASE_URL ∅], Return sample_this).
Proof.
  split.
  - apply (proj1 (constructor_requires_api_key sample_new sample_url no_key)).
    left. reflexivity.
  - apply (proj2 (constructor_requires_api_key sample_new sample_url with_key)
             "sk-1" eq_refl).
    discriminate.
Defined.

(** With the toggle set and a failing sink, the debug branch shows in the
    log only: the sink is started, its failure goes to [console.error],
    and the caller gets the chunks of the vendor stream. *)
Example debug_failure_is_only_logged :
  chat echo_create sample_QwenAIStream sample_StreamingResponse sample_handle
       debugging sample_this plain_payload None =
  ([ EvCreate (buildCompletionParamsByModel plain_payload);
     EvDebugStream (transformResponseToStream greeting ++
                    transformResponseToStream greeting)%list;
     EvConsoleError sink_closed ],
   Return ((transformResponseToStream greeting ++
            transformResponseToStream greeting)%list, None)).
Proof. vm_compute. reflexivity. Qed.

Example debug_off_is_silent :
  chat echo_create sample_QwenAIStream sample_StreamingResponse sample_handle
       quiet sample_this plain_payload None =
  ([ EvCreate (buildCompletionParamsByModel plain_payload) ],
   Return ((transformResponseToStream greeting ++
            transformResponseToStream greeting)%list, None)).
Proof. vm_compute. reflexivity. Qed.

(** The catalog of the Stepfun card, as [models] returns it. *)
Example models_of_stepfun :
  snd (models ModelProviders.Stepfun sample_this) =
    @Return AgentError _ (ModelProviders.chatModels ModelProviders.Stepfun) /\
  length (ModelProviders.chatModels ModelProviders.Stepfun) = 5%nat.
Proof. split; reflexivity. Qed.

(** * Further properties of the request builder *)

Module BuilderFacts.

Lemma params_top_p (payload : Payload.t) :
  params_of payload !! "top_p" = Some (clamp_top_p (Payload.top_p payload)).
Proof. unfold params_of. apply lookup_insert_eq. Qed.

Lemma not_unsupported (k : string) :
  k ∉ vision_unsupported <->
  k <> "presence_penalty" /\ k <> "frequency_penalty" /\ k <> "temperature" /\
  k <> "result_format" /\ k <> "top_p".
Proof.
  unfold vision_unsupported. rewrite !not_elem_of_cons. split.
  - intros (H1 & H2 & H3 & H4 & H5 & _). auto.
  - intros (H1 & H2 & H3 & H4 & H5). repeat split; auto. apply not_elem_of_nil.
Qed.

Lemma dom_omit (obj : gmap string JsValue) (paths : list string) :
  dom (omit obj paths) = dom obj ∖ list_to_set paths.
Proof.
  apply set_eq. intros k.
  rewrite elem_of_difference, !elem_of_dom, Builder.lookup_omit, elem_of_list_to_set.
  destruct (decide (k ∈ paths)) as [Hin|Hnin].
  - split; [intros [v Hv]; discriminate Hv | intros [_ Hn]; contradiction].
  - split; [intros Hk; split; assumption | intros [Hk _]; exact Hk].
Qed.

Lemma dom_params (payload : Payload.t) :
  dom (params_of payload) = dom (spread payload) ∪ written_keys.
Proof.
  unfold params_of, written_keys. rewrite !dom_insert_L.
  assert (Hm : "messages" ∈ dom (spread payload)).
  { apply elem_of_dom. rewrite Builder.spread_messages. eauto. }
  apply set_eq. intros k.
  rewrite !elem_of_union, !elem_of_singleton.
  split; [|tauto].
  intros [->|[->|[->|[->|Hk]]]]; auto.
Qed.

(** The truth value on which [chat] branches. *)
Lemma stream_flag (payload : Payload.t) :
  truthy (get (buildCompletionParamsByModel payload) "stream") =
    negb (has_tools (Payload.tools payload)) &&
    default true (Payload.stream payload).
Proof.
  unfold get. rewrite Builder.build_stream. cbn [default truthy].
  destruct (has_tools _); reflexivity.
Qed.

(** [startsWith]: the string is the prefix followed by something. *)
Lemma startsWith_append (s prefix : string) :
  startsWith s prefix = true <-> exists rest, s = String.append prefix rest.
Proof.
  unfold startsWith. revert s.
  induction prefix as [|c prefix IH]; intros s.
  - split; [intros _; exists s; reflexivity | intros _; destruct s; reflexivity].
  - destruct s as [|d s]; cbn [String.prefix String.append].
    + split; [discriminate | intros [rest Hr]; discriminate Hr].
    + destruct (Ascii.ascii_dec c d) as [->|Hne].
      * rewrite IH. split; intros [rest Hr]; exists rest.
        -- rewrite Hr. reflexivity.
        -- injection Hr as Hr. exact Hr.
      * split; [discriminate|].
        intros [rest Hr]. injection Hr as Hc _. symmetry in Hc. contradiction.
Qed.

End BuilderFacts.

(** X1: whatever the payload, a number found under [top_p] in the built
    request is never at least one. *)
Theorem built_top_p_below_one (payload : Payload.t) (y : float) :
  buildCompletionParamsByModel payload !! "top_p" = Some (JNum y) ->
  JsNumber.ge y 1 = false.
Proof.
  destruct (startsWith (Payload.model payload) "qwen-vl") eqn:Hv.
  - rewrite (Builder.build_vision payload Hv), Builder.lookup_omit.
    destruct (decide ("top_p" ∈ vision_unsupported)) as [_|Hn]; [discriminate|].
    exfalso. apply Hn. unfold vision_unsupported. set_solver.
  - rewrite (Builder.build_text payload Hv), BuilderFacts.params_top_p.
    unfold clamp_top_p. destruct (Payload.top_p payload) as [x|]; [|discriminate].
    destruct (JsNumber.ge x 1) eqn:Hge.
    + rewrite (NumberFacts.ge_one_truthy x Hge). cbn [andb].
      intros [= <-]. reflexivity.
    + rewrite andb_false_r. intros [= <-]. exact Hge.
Qed.

Lemma built_top_p_below_one_witness :
  JsNumber.ge 0.999%float 1 = false.
Proof. exact (built_top_p_below_one tools_payload 0.999%float eq_refl). Defined.

(** X2: for a text model, a [top_p] that is not at least one (zero and
    [NaN] included) is passed through as it is, and an absent [top_p]
    leaves the property in the request with the value [undefined]. *)
Theorem top_p_edge_values (payload : Payload.t) :
  startsWith (Payload.model payload) "qwen-vl" = false ->
  (Payload.top_p payload = None ->
     buildCompletionParamsByModel payload !! "top_p" = Some JUndefined) /\
  (forall x, Payload.top_p payload = Some x -> JsNumber.ge x 1 = false ->
     buildCompletionParamsByModel payload !! "top_p" = Some (JNum x)).
Proof.
  intros Hv. rewrite (Builder.build_text payload Hv), BuilderFacts.params_top_p.
  split.
  - intros ->. reflexivity.
  - intros x -> Hge. unfold clamp_top_p. rewrite Hge, andb_false_r. reflexivity.
Qed.

Lemma top_p_edge_values_witness :
  buildCompletionParamsByModel bare_payload !! "top_p" = Some JUndefined /\
  buildCompletionParamsByModel nan_payload !! "top_p" = Some (JNum PrimFloat.nan).
Proof.
  split.
  - exact (proj1 (top_p_edge_values bare_payload eq_refl) eq_refl).
  - exact (proj2 (top_p_edge_values nan_payload eq_refl) PrimFloat.nan eq_refl eq_refl).
Defined.

(** X3: for a vision model, every property of the payload outside the
    five unsupported ones and [stream] keeps its value in the request:
    the filter removes nothing else. *)
Theorem vision_request_keeps_supported (payload : Payload.t) (k : string) (v : JsValue) :
  startsWith (Payload.model payload) "qwen-vl" = true ->
  spread payload !! k = Some v ->
  k ∉ vision_unsupported -> k <> "stream" ->
  buildCompletionParamsByModel payload !! k = Some v.
Proof.
  intros Hv Hk Hun Hs.
  rewrite (Builder.build_vision payload Hv), Builder.lookup_omit.
  destruct (decide (k ∈ vision_unsupported)) as [Hin|_]; [contradiction|].
  apply BuilderFacts.not_unsupported in Hun as (_ & _ & _ & Hr & Ht).
  rewrite Builder.params_other by assumption. exact Hk.
Qed.

Lemma vision_request_keeps_supported_witness :
  buildCompletionParamsByModel vision_payload !! "model" = Some (JStr "qwen-vl-plus").
Proof.
  apply (vision_request_keeps_supported vision_payload "model" _ eq_refl eq_refl).
  - apply BuilderFacts.not_unsupported. repeat split; discriminate.
  - discriminate.
Defined.

(** X4: the property names of the built request.  For a text model they
    are those of the payload together with [top_p], [stream] and
    [result_format]; for a vision model the five unsupported names are
    taken out of that set.  The builder adds no other property. *)
Theorem built_request_keys (payload : Payload.t) :
  dom (buildCompletionParamsByModel payload) =
    if startsWith (Payload.model payload) "qwen-vl"
    then (dom (spread payload) ∪ written_keys) ∖ list_to_set vision_unsupported
    else dom (spread payload) ∪ written_keys.
Proof.
  destruct (startsWith (Payload.model payload) "qwen-vl") eqn:Hv.
  - rewrite (Builder.build_vision payload Hv), BuilderFacts.dom_omit,
      BuilderFacts.dom_params. reflexivity.
  - rewrite (Builder.build_text payload Hv). apply BuilderFacts.dom_params.
Qed.

(** X5: the builder gives a request the vision treatment exactly when
    the model id is [qwen-vl] followed by any suffix (the test is case
    sensitive): for such an id the request has neither [result_format] nor
    [top_p], and for every other id it has [result_format = 'message'] and
    a [top_p] property. *)
Theorem vision_family_by_prefix (payload : Payload.t) :
  ((exists suffix, Payload.model payload = String.append "qwen-vl" suffix) <->
   buildCompletionParamsByModel payload !! "result_format" = None) /\
  ((exists suffix, Payload.model payload = String.append "qwen-vl" suffix) <->
   "top_p" ∉ dom (buildCompletionParamsByModel payload)) /\
  ((~ exists suffix, Payload.model payload = String.append "qwen-vl" suffix) <->
   buildCompletionParamsByModel payload !! "result_format" = Some (JStr "message")).
Proof.
  rewrite <- !BuilderFacts.startsWith_append, not_elem_of_dom.
  assert (Hin : forall k, k ∈ vision_unsupported ->
            omit (params_of payload) vision_unsupported !! k = None).
  { intros k Hk. rewrite Builder.lookup_omit.
    destruct (decide (k ∈ vision_unsupported)); [reflexivity | contradiction]. }
  assert (Hfmt : params_of payload !! "result_format" = Some (JStr "message")).
  { unfold params_of. rewrite !lookup_insert_ne by discriminate.
    apply lookup_insert_eq. }
  destruct (startsWith (Payload.model payload) "qwen-vl") eqn:Hv.
  - rewrite (Builder.build_vision payload Hv).
    rewrite !Hin by (unfold vision_unsupported; set_solver).
    repeat split; auto; try discriminate. intros Hn. contradiction Hn. reflexivity.
  - rewrite (Builder.build_text payload Hv), Hfmt, BuilderFacts.params_top_p.
    repeat split; auto; discriminate.
Qed.

Lemma vision_family_by_prefix_witness :
  buildCompletionParamsByModel vision_payload !! "result_format" = None /\
  ("top_p" ∉ dom (buildCompletionParamsByModel vision_payload)) /\
  ~ (exists suffix, Payload.model bare_payload = String.append "qwen-vl" suffix).
Proof.
  split; [|split].
  - apply (proj1 (proj1 (vision_family_by_prefix vision_payload))).
    exists "-plus". reflexivity.
  - apply (proj1 (proj1 (proj2 (vision_family_by_prefix vision_payload)))).
    exists "-plus". reflexivity.
  - apply (proj2 (proj2 (proj2 (vision_family_by_prefix bare_payload)))).
    reflexivity.
Defined.

Example upper_case_id_is_text :
  startsWith (Payload.model bare_payload) "qwen-vl" = false /\
  buildCompletionParamsByModel bare_payload !! "result_format" = Some (JStr "message").
Proof. split; reflexivity. Qed.

(** * Further properties of the synthesized stream *)

Module StreamFacts.

Lemma mapi_from_length {A B : Type} (f : A -> nat -> B) (l : list A) (start : nat) :
  length (mapi_from f start l) = length l.
Proof.
  revert start. induction l as [|x l IH]; intros start; cbn [mapi_from length].
  - reflexivity.
  - rewrite IH. reflexivity.
Qed.

End StreamFacts.

(** X6: the first chunk forwards the tool calls of every choice in their
    order: as many as the message has, the one at position [j] with
    [index = j] and the function, id and type of the original; a message
    without tool calls gives a delta without them. *)
Theorem tool_calls_forwarded_in_order (data : Completion.t) (first : Chunk.t)
    (i : nat) (choice : Completion.Choice) :
  transformResponseToStream data !! 0%nat = Some first ->
  Completion.choices data !! i = Some choice ->
  exists c1 : Chunk.Choice,
    Chunk.choices first !! i = Some c1 /\
    match Completion.tool_calls (Completion.message choice) with
    | None => Chunk.tool_calls (Chunk.delta c1) = None
    | Some tools =>
        exists calls,
          Chunk.tool_calls (Chunk.delta c1) = Some calls /\
          length calls = length tools /\
          forall (j : nat) (tool : Completion.ToolCall),
            tools !! j = Some tool ->
            calls !! j = Some {|
              Chunk.tc_function := Completion.tc_function tool;
              Chunk.tc_id := Completion.tc_id tool;
              Chunk.tc_index := j;
              Chunk.tc_type := Completion.tc_type tool |}
    end.
Proof.
  intros [= <-] Hi. exists (content_choice choice).
  cbn [Chunk.choices]. rewrite list_lookup_fmap, Hi. split; [reflexivity|].
  unfold content_choice. cbn [Chunk.delta Chunk.tool_calls].
  destruct (Completion.tool_calls (Completion.message choice)) as [tools|];
    [|reflexivity].
  exists (mapi delta_tool_call tools). split; [reflexivity|]. split.
  - apply StreamFacts.mapi_from_length.
  - intros j tool Hj. unfold mapi.
    rewrite (mapi_from_lookup delta_tool_call tools 0 j tool Hj). reflexivity.
Qed.

Lemma tool_calls_forwarded_in_order_witness :
  exists (c1 : Chunk.Choice) (calls : list Chunk.ToolCall),
    Chunk.tool_calls (Chunk.delta c1) = Some calls /\
    length calls = 2%nat /\
    Chunk.tc_index <$> calls !! 1%nat = Some 1%nat.
Proof.
  destruct (tool_calls_forwarded_in_order two_calls _ 0%nat _ eq_refl eq_refl)
    as (c1 & _ & calls & Hcalls & Hlen & Hat).
  exists c1, calls. split; [exact Hcalls|]. split; [exact Hlen|].
  rewrite (Hat 1%nat _ eq_refl). reflexivity.
Defined.

(** X7: both chunks identify the completion they come from: each has the
    [id], [created] and [model] of the completion and the object tag of a
    chunk, and each entry keeps the [index] and [logprobs] of its choice;
    only the second chunk carries the [system_fingerprint]. *)
Theorem chunks_identify_completion (data : Completion.t) (n : nat) (chunk : Chunk.t) :
  transformResponseToStream data !! n = Some chunk ->
  Chunk.id chunk = Completion.id data /\
  Chunk.created chunk = Completion.created data /\
  Chunk.model chunk = Completion.model data /\
  Chunk.object chunk = "chat.completion.chunk" /\
  Chunk.system_fingerprint chunk =
    (if decide (n = 0%nat) then None else Completion.system_fingerprint data) /\
  Chunk.index <$> Chunk.choices chunk =
    Completion.index <$> Completion.choices data /\
  Chunk.logprobs <$> Chunk.choices chunk =
    Completion.logprobs <$> Completion.choices data.
Proof.
  intros Hn.
  destruct n as [|[|n]]; [| |discriminate Hn]; injection Hn as <-;
    cbn [Chunk.id Chunk.created Chunk.model Chunk.object
         Chunk.system_fingerprint Chunk.choices];
    rewrite <- !list_fmap_compose; repeat split; reflexivity.
Qed.

Lemma chunks_identify_completion_witness :
  exists chunk : Chunk.t,
    transformResponseToStream two_calls !! 1%nat = Some chunk /\
    Chunk.id chunk = "chatcmpl-2" /\
    Chunk.system_fingerprint chunk = Some "fp_1".
Proof.
  destruct (chunks_identify_completion two_calls 1 _ eq_refl)
    as (Hid & _ & _ & _ & Hfp & _).
  eexists. split; [reflexivity|]. split; [exact Hid | exact Hfp].
Defined.

(** * Further properties of [chat] *)

Section ChatFacts.

Context {OpenAI Callback Headers AbortSignal ProtocolStream Response : Type}.
Context (create :
  OpenAI -> gmap string JsValue -> RequestOptions AbortSignal ->
  result ErrorObject VendorResponse).
Context (QwenAIStream :
  list Chunk.t -> option Callback -> result ErrorObject ProtocolStream).
Context (StreamingResponse :
  ProtocolStream -> option Headers -> result ErrorObject Response).
Context (handleOpenAIError : ErrorObject -> HandledError).

Implicit Types (proc : Process) (this : LobeQwenAI OpenAI) (payload : Payload.t).
Implicit Types (options : option (ChatCompetitionOptions Callback Headers AbortSignal)).

(** The log of [chat]: the vendor call, then the events of the debug
    branch when a live stream answers a streaming request. *)
Lemma chat_log proc this payload options :
  fst (chat create QwenAIStream StreamingResponse handleOpenAIError
            proc this payload options) =
  EvCreate (buildCompletionParamsByModel payload) ::
  match create (this_client this) (buildCompletionParamsByModel payload)
               (request_init options) with
  | Return (LiveStream source) =>
      if truthy (get (buildCompletionParamsByModel payload) "stream")
      then debug_events proc source else []
  | _ => []
  end.
Proof.
  rewrite chat_of_body.
  unfold chat_body, request_init, debug_events.
  destruct (create _ _ _) as [response|e]; [|reflexivity].
  destruct (truthy _), response as [source|data]; try reflexivity.
  - cbn [emit bind lift ret].
    destruct (decide _) as [Hon|Hoff];
      [destruct (debugStream proc source) as [reason|]|];
      cbn [emit bind lift ret];
      (destruct (QwenAIStream _ _) as [stream|e]; [|reflexivity]);
      destruct (StreamingResponse _ _); reflexivity.
  - cbn [emit bind lift ret].
    destruct (QwenAIStream _ _) as [stream|e]; [|reflexivity].
    destruct (StreamingResponse _ _); reflexivity.
Qed.

Lemma debug_events_only proc (source : list Chunk.t) (ev : Event) :
  ev ∈ debug_events proc source ->
  env proc !! "DEBUG_QWEN_CHAT_COMPLETION" = Some "1" /\
  (ev = EvDebugStream source \/
   exists reason, ev = EvConsoleError reason /\ debugStream proc source = Some reason).
Proof.
  unfold debug_events. destruct (decide _) as [Hon|Hoff].
  - intros Hev. split; [exact Hon|].
    apply elem_of_cons in Hev as [->|Hev]; [left; reflexivity|].
    destruct (debugStream proc source) as [reason|].
    + apply list_elem_of_singleton in Hev as ->. right. eauto.
    + apply elem_of_nil in Hev. contradiction.
  - intros Hev. apply elem_of_nil in Hev. contradiction.
Qed.

(** X8: [chat] calls the vendor exactly once, before anything else, with
    the request built from the payload: the log starts with that call and
    holds no other call and no construction of a client, whatever the
    outcome.  There is no retry. *)
Theorem chat_calls_vendor_once proc this payload options :
  exists rest : list Event,
    fst (chat create QwenAIStream StreamingResponse handleOpenAIError
              proc this payload options) =
      EvCreate (buildCompletionParamsByModel payload) :: rest /\
    (forall params, EvCreate params ∉ rest) /\
    (forall key url more, EvNewClient key url more ∉ rest).
Proof.
  rewrite chat_log. eexists. split; [reflexivity|].
  assert (Hrest : forall ev,
            ev ∈ match create (this_client this)
                         (buildCompletionParamsByModel payload)
                         (request_init options) with
                 | Return (LiveStream source) =>
                     if truthy (get (buildCompletionParamsByModel payload) "stream")
                     then debug_events proc source else []
                 | _ => []
                 end ->
            (exists d, ev = EvDebugStream d) \/ (exists e, ev = EvConsoleError e)).
  { intros ev Hev.
    destruct (create _ _ _) as [[source|data]|e];
      try (apply elem_of_nil in Hev; contradiction).
    destruct (truthy _); [|apply elem_of_nil in Hev; contradiction].
    apply debug_events_only in Hev as [_ [->|(reason & -> & _)]]; eauto. }
  split.
  - intros params Hin. apply Hrest in Hin as [[d Hd]|[e He]]; discriminate.
  - intros key url more Hin. apply Hrest in Hin as [[d Hd]|[e He]]; discriminate.
Qed.

(** X9: the debug sink is started on a sequence of chunks exactly when
    the toggle is ["1"], the request is a streaming one (no tools, and
    the flag not false) and the vendor answered with that live stream; and
    an error is logged exactly when the sink so started fails with it. *)
Theorem debug_sink_gating proc this payload options :
  (forall source,
     EvDebugStream source ∈
       fst (chat create QwenAIStream StreamingResponse handleOpenAIError
                 proc this payload options) <->
     env proc !! "DEBUG_QWEN_CHAT_COMPLETION" = Some "1" /\
     has_tools (Payload.tools payload) = false /\
     default true (Payload.stream payload) = true /\
     create (this_client this) (buildCompletionParamsByModel payload)
            (request_init options) = Return (LiveStream source)) /\
  (forall reason,
     EvConsoleError reason ∈
       fst (chat create QwenAIStream StreamingResponse handleOpenAIError
                 proc this payload options) <->
     exists source,
       EvDebugStream source ∈
         fst (chat create QwenAIStream StreamingResponse handleOpenAIError
                   proc this payload options) /\
       debugStream proc source = Some reason).
Proof.
  rewrite chat_log, BuilderFacts.stream_flag.
  assert (Hflag : forall a b, negb a && b = true <-> a = false /\ b = true).
  { intros [|] [|]; cbn; split; intros; try discriminate; intuition discriminate. }
  assert (Hsink : forall source,
    EvDebugStream source ∈
      EvCreate (buildCompletionParamsByModel payload) ::
      match create (this_client this) (buildCompletionParamsByModel payload)
                   (request_init options) with
      | Return (LiveStream source) =>
          if negb (has_tools (Payload.tools payload)) &&
             default true (Payload.stream payload)
          then debug_events proc source else []
      | _ => []
      end <->
    env proc !! "DEBUG_QWEN_CHAT_COMPLETION" = Some "1" /\
    has_tools (Payload.tools payload) = false /\
    default true (Payload.stream payload) = true /\
    create (this_client this) (buildCompletionParamsByModel payload)
           (request_init options) = Return (LiveStream source)).
  { intros source. rewrite elem_of_cons. split.
    - intros [Hev|Hev]; [discriminate Hev|].
      destruct (create _ _ _) as [[live|data]|e];
        try (apply elem_of_nil in Hev; contradiction).
      destruct (negb _ && _) eqn:Hf; [|apply elem_of_nil in Hev; contradiction].
      apply Hflag in Hf as [Ht Hs].
      apply debug_events_only in Hev as [Hon [[= ->]|(reason & Hr & _)]];
        [auto | discriminate Hr].
    - intros (Hon & Ht & Hs & ->). right. rewrite Ht, Hs. cbn [negb andb].
      unfold debug_events. rewrite decide_True by exact Hon.
      apply list_elem_of_here. }
  split; [exact Hsink|].
  intros reason. split.
  - rewrite elem_of_cons. intros [Hev|Hev]; [discriminate Hev|].
    destruct (create _ _ _) as [[live|data]|e] eqn:Hc;
      try (apply elem_of_nil in Hev; contradiction).
    destruct (negb _ && _) eqn:Hf; [|apply elem_of_nil in Hev; contradiction].
    pose proof Hev as Hev'.
    apply debug_events_only in Hev' as [Hon [Hd|(r & [= <-] & Hr)]];
      [discriminate Hd|].
    exists live. split; [|exact Hr].
    apply Hflag in Hf as [Ht Hs]. apply Hsink. auto.
  - intros (source & Hin & Hr). apply Hsink in Hin as (Hon & Ht & Hs & ->).
    rewrite Ht, Hs. cbn [negb andb]. unfold debug_events.
    rewrite decide_True by exact Hon. rewrite Hr.
    apply list_elem_of_further, list_elem_of_further, list_elem_of_here.
Qed.

(** X10: a request that declares tools is served from the blocking
    response: the vendor is asked with [stream = false], the transcoder is
    given the two synthesized chunks of the completion, the debug sink is
    never started (whatever the toggle), and the outcome is the streaming
    response built on the transcoder's output, or the normal form of the
    failure of either step. *)
Theorem tool_request_uses_blocking_response proc this payload options
    (tool : ChatCompletionTool) (others : list ChatCompletionTool)
    (data : Completion.t) :
  Payload.tools payload = Some (tool :: others) ->
  create (this_client this) (buildCompletionParamsByModel payload)
         (request_init options) = Return (Blocking data) ->
  buildCompletionParamsByModel payload !! "stream" = Some (JBool false) /\
  chat create QwenAIStream StreamingResponse handleOpenAIError
       proc this payload options =
    ([EvCreate (buildCompletionParamsByModel payload)],
     match QwenAIStream (transformResponseToStream data) (options ≫= callback) with
     | Throw e => Throw (normalize handleOpenAIError this e)
     | Return stream =>
         match StreamingResponse stream (options ≫= headers) with
         | Throw e => Throw (normalize handleOpenAIError this e)
         | Return response => Return response
         end
     end).
Proof.
  intros Htools Hcreate.
  assert (Hstream : buildCompletionParamsByModel payload !! "stream" =
                    Some (JBool false)).
  { rewrite Builder.build_stream, Htools. reflexivity. }
  split; [exact Hstream|].
  apply injective_projections.
  - rewrite chat_log, Hcreate. reflexivity.
  - rewrite chat_outcome, body_outcome, Hcreate. cbn [snd].
    unfold transcoded, get. rewrite Hstream.
    change (truthy (default JUndefined (Some (JBool false)))) with false.
    cbv iota.
    destruct (QwenAIStream _ _) as [stream|e]; [|reflexivity].
    destruct (StreamingResponse _ _); reflexivity.
Qed.

(** X18: a streaming request (no tools, and the flag not false) answered
    by a live stream hands the chunks of the vendor to the transcoder as
    they are, whatever the debug branch does; the outcome is the streaming
    response built on the transcoder's output, or the normal form of the
    failure of either step. *)
Theorem streaming_request_forwards_live_stream proc this payload options
    (source : list Chunk.t) :
  has_tools (Payload.tools payload) = false ->
  default true (Payload.stream payload) = true ->
  create (this_client this) (buildCompletionParamsByModel payload)
         (request_init options) = Return (LiveStream source) ->
  chat create QwenAIStream StreamingResponse handleOpenAIError
       proc this payload options =
    (EvCreate (buildCompletionParamsByModel payload) :: debug_events proc source,
     match QwenAIStream source (options ≫= callback) with
     | Throw e => Throw (normalize handleOpenAIError this e)
     | Return stream =>
         match StreamingResponse stream (options ≫= headers) with
         | Throw e => Throw (normalize handleOpenAIError this e)
         | Return response => Return response
         end
     end).
Proof.
  intros Htools Hflag Hcreate.
  assert (Hstream :
    truthy (get (buildCompletionParamsByModel payload) "stream") = true).
  { rewrite BuilderFacts.stream_flag, Htools, Hflag. reflexivity. }
  apply injective_projections.
  - rewrite chat_log, Hcreate, Hstream. reflexivity.
  - rewrite chat_outcome, body_outcome, Hcreate. cbn [snd].
    unfold transcoded. rewrite Hstream.
    destruct (QwenAIStream _ _) as [stream|e]; [|reflexivity].
    destruct (StreamingResponse _ _); reflexivity.
Qed.

(** X11: a tool request answered by a live stream, or a streaming request
    answered by a blocking completion, ends in a thrown runtime error
    built from a [TypeError]; nothing is handed to the transcoder. *)
Theorem mismatched_response_is_an_error proc this payload options
    (response : VendorResponse) :
  create (this_client this) (buildCompletionParamsByModel payload)
         (request_init options) = Return response ->
  transcoded (buildCompletionParamsByModel payload) response = None ->
  exists message,
    snd (chat create QwenAIStream StreamingResponse handleOpenAIError
              proc this payload options) =
      Throw (normalize handleOpenAIError this (TypeError message)) /\
    errorType (normalize handleOpenAIError this (TypeError message)) =
      default ProviderBizError (RuntimeError (handleOpenAIError (TypeError message))) /\
    ((exists source, response = LiveStream source) ->
     truthy (get (buildCompletionParamsByModel payload) "stream") = false) /\
    ((exists data, response = Blocking data) ->
     truthy (get (buildCompletionParamsByModel payload) "stream") = true).
Proof.
  intros Hcreate Hnone. eexists.
  split; [rewrite chat_outcome, body_outcome, Hcreate, Hnone; reflexivity|].
  split; [apply normalize_other; discriminate|].
  unfold transcoded in Hnone.
  destruct (truthy _), response; try discriminate Hnone; split;
    intros [x Hx]; try discriminate Hx; reflexivity.
Qed.

(** X12: for an error with status 401 the thrown runtime error holds the
    caught object itself and does not depend on the inspector; for any
    other error it holds the body extracted by the inspector.  In both
    cases it has the base URL of the runtime as endpoint and the provider
    id, which the error of the constructor has not. *)
Theorem error_payload_by_status this (e : ErrorObject)
    (other : ErrorObject -> HandledError) :
  (err_status e = Some 401%Z ->
     error (normalize handleOpenAIError this e) = Caught e /\
     normalize handleOpenAIError this e = normalize other this e) /\
  (err_status e <> Some 401%Z ->
     error (normalize handleOpenAIError this e) =
       Inspected (errorResult (handleOpenAIError e))) /\
  endpoint (normalize handleOpenAIError this e) = Some (this_baseURL this) /\
  provider (normalize handleOpenAIError this e) = Some Qwen /\
  endpoint (createError InvalidProviderAPIKey) = None /\
  provider (createError InvalidProviderAPIKey) = None.
Proof.
  split; [|split; [|split; [|split; [|split; reflexivity]]]].
  - intros H. unfold normalize. rewrite H. split; reflexivity.
  - intros H. unfold normalize.
    destruct (err_status e) as [[|p|p]|]; try reflexivity.
    repeat (destruct p as [p|p|]; try reflexivity).
    contradiction H. reflexivity.
  - apply normalize_endpoint.
  - apply normalize_endpoint.
Qed.

End ChatFacts.

Lemma debug_sink_gating_witness :
  EvDebugStream (transformResponseToStream greeting ++
                 transformResponseToStream greeting)%list ∈
    fst (chat echo_create sample_QwenAIStream sample_StreamingResponse
              sample_handle debugging sample_this plain_payload None) /\
  EvConsoleError sink_closed ∈
    fst (chat echo_create sample_QwenAIStream sample_StreamingResponse
              sample_handle debugging sample_this plain_payload None) /\
  ~ EvDebugStream (transformResponseToStream greeting ++
                   transformResponseToStream greeting)%list ∈
    fst (chat echo_create sample_QwenAIStream sample_StreamingResponse
              sample_handle half_debugging sample_this plain_payload None).
Proof.
  assert (Hon :
    EvDebugStream (transformResponseToStream greeting ++
                   transformResponseToStream greeting)%list ∈
      fst (chat echo_create sample_QwenAIStream sample_StreamingResponse
                sample_handle debugging sample_this plain_payload None)).
  { apply (proj1 (debug_sink_gating echo_create sample_QwenAIStream
                    sample_StreamingResponse sample_handle
                    debugging sample_this plain_payload None)).
    repeat split; reflexivity. }
  split; [exact Hon|]. split.
  - apply (proj2 (debug_sink_gating echo_create sample_QwenAIStream
                    sample_StreamingResponse sample_handle
                    debugging sample_this plain_payload None)).
    eexists. split; [exact Hon | reflexivity].
  - intros Hin.
    apply (proj1 (debug_sink_gating echo_create sample_QwenAIStream
                    sample_StreamingResponse sample_handle
                    half_debugging sample_this plain_payload None)) in Hin
      as (Hoff & _).
    vm_compute in Hoff. discriminate Hoff.
Defined.

Lemma tool_request_uses_blocking_response_witness :
  chat echo_create sample_QwenAIStream sample_StreamingResponse sample_handle
       debugging sample_this tools_payload None =
  ([EvCreate (buildCompletionParamsByModel tools_payload)],
   Return (transformResponseToStream greeting, None)).
Proof.
  exact (proj2 (tool_request_uses_blocking_response
                  echo_create sample_QwenAIStream sample_StreamingResponse
                  sample_handle debugging sample_this tools_payload None
                  weather_tool [] greeting eq_refl eq_refl)).
Defined.

Lemma streaming_request_forwards_live_stream_witness :
  chat echo_create sample_QwenAIStream sample_StreamingResponse sample_handle
       debugging sample_this plain_payload None =
  ([ EvCreate (buildCompletionParamsByModel plain_payload);
     EvDebugStream (transformResponseToStream greeting ++
                    transformResponseToStream greeting)%list;
     EvConsoleError sink_closed ],
   Return ((transformResponseToStream greeting ++
            transformResponseToStream greeting)%list, None)).
Proof.
  exact (streaming_request_forwards_live_stream
           echo_create sample_QwenAIStream sample_StreamingResponse
           sample_handle debugging sample_this plain_payload None
           _ eq_refl eq_refl eq_refl).
Defined.

Lemma mismatched_response_is_an_error_witness :
  exists message,
    snd (chat stubborn_create sample_QwenAIStream sample_StreamingResponse
              sample_handle quiet sample_this tools_payload None) =
      Throw (normalize sample_handle sample_this (TypeError message)) /\
    errorType (normalize sample_handle sample_this (TypeError message)) =
      FinerKind "AgentRuntimeError".
Proof.
  destruct (mismatched_response_is_an_error
              stubborn_create sample_QwenAIStream sample_StreamingResponse
              sample_handle quiet sample_this tools_payload None
              _ eq_refl eq_refl) as (message & Hchat & Hkind & _).
  exists message. split; [exact Hchat|]. rewrite Hkind. reflexivity.
Defined.

Lemma error_payload_by_status_witness :
  error (normalize sample_handle sample_this unauthorized) = Caught unauthorized /\
  error (normalize sample_handle sample_this rate_limited) =
    Inspected {[ "message" := JStr "429 Requests rate limit exceeded" ]} /\
  endpoint (normalize sample_handle sample_this rate_limited) =
    Some DEFAULT_BASE_URL.
Proof.
  split; [|split];
    [| |exact (proj1 (proj2 (proj2 (error_payload_by_status
                  sample_handle sample_this rate_limited sample_handle))))].
  - apply (proj1 (error_payload_by_status sample_handle sample_this
                    unauthorized sample_handle)). reflexivity.
  - apply (proj1 (proj2 (error_payload_by_status sample_handle sample_this
                           rate_limited sample_handle))). discriminate.
Defined.

(** * The runtime from construction to error *)

(** X13: every error thrown by [chat] on a runtime that the constructor
    returned names, as its endpoint, the base URL reported by the client
    that the constructor built from the key, the given base URL (or
    [DEFAULT_BASE_URL] when none is given) and the other options. *)
Theorem chat_error_names_constructed_endpoint
    {OpenAI Callback Headers AbortSignal ProtocolStream Response : Type}
    (OpenAI_new : string -> string -> gmap string string -> OpenAI)
    (client_baseURL : OpenAI -> string)
    (create : OpenAI -> gmap string JsValue -> RequestOptions AbortSignal ->
              result ErrorObject VendorResponse)
    (QwenAIStream : list Chunk.t -> option Callback -> result ErrorObject ProtocolStream)
    (StreamingResponse : ProtocolStream -> option Headers -> result ErrorObject Response)
    (handleOpenAIError : ErrorObject -> HandledError)
    (client_options : ClientOptions) (log : list Event) (this : LobeQwenAI OpenAI)
    (proc : Process) (payload : Payload.t)
    (options : option (ChatCompetitionOptions Callback Headers AbortSignal))
    (err : AgentError) :
  constructor OpenAI_new client_baseURL client_options = (log, Return this) ->
  snd (chat create QwenAIStream StreamingResponse handleOpenAIError
            proc this payload options) = Throw err ->
  exists key,
    apiKey client_options = Some key /\ key <> "" /\
    endpoint err =
      Some (client_baseURL
              (OpenAI_new key (default DEFAULT_BASE_URL (baseURL client_options))
                          (res client_options))) /\
    provider err = Some Qwen.
Proof.
  unfold constructor. intros Hnew Hchat.
  destruct (apiKey client_options) as [key|]; [|discriminate Hnew].
  destruct (String.eqb key "") eqn:Hkey; [discriminate Hnew|].
  injection Hnew as _ <-. exists key.
  split; [reflexivity|]. split; [apply String.eqb_neq; exact Hkey|].
  rewrite chat_outcome in Hchat.
  destruct (snd (chat_body _ _ _ _ _ _ _)) as [r|e]; [discriminate Hchat|].
  injection Hchat as <-. apply normalize_endpoint.
Qed.

Lemma chat_error_names_constructed_endpoint_witness :
  exists key,
    apiKey with_key = Some key /\ key <> "" /\
    endpoint (normalize sample_handle sample_this rate_limited) =
      Some (sample_url (sample_new key (default DEFAULT_BASE_URL (baseURL with_key))
                                   (res with_key))) /\
    provider (normalize sample_handle sample_this rate_limited) = Some Qwen.
Proof.
  exact (chat_error_names_constructed_endpoint
           sample_new sample_url (failing_create rate_limited)
           sample_QwenAIStream sample_StreamingResponse sample_handle
           with_key _ sample_this quiet plain_payload None _ eq_refl eq_refl).
Defined.

(** * The Stepfun card *)

(** X14: the card is consistent: the model used to check connectivity is
    one of the catalog, the ids of the catalog are pairwise distinct, every
    entry has a positive token limit, and the only vision entry is
    [step-1v-32k]. *)
Theorem stepfun_card_consistent :
  ModelProviders.checkModel ModelProviders.Stepfun ∈
    (ModelProviders.id <$> ModelProviders.chatModels ModelProviders.Stepfun) /\
  NoDup (ModelProviders.id <$> ModelProviders.chatModels ModelProviders.Stepfun) /\
  Forall (fun card => (0 < ModelProviders.tokens card)%Z)
         (ModelProviders.chatModels ModelProviders.Stepfun) /\
  ModelProviders.id <$>
    filter (fun card => ModelProviders.vision card = Some true)
           (ModelProviders.chatModels ModelProviders.Stepfun) = ["step-1v-32k"].
Proof.
  split; [|split; [|split]].
  - apply (bool_decide_unpack _). vm_compute. exact I.
  - apply (bool_decide_unpack _). vm_compute. exact I.
  - cbn. repeat (apply Forall_cons; split; [reflexivity|]). apply Forall_nil_2.
  - reflexivity.
Qed.

(** * The authentication actions *)

(** X15: the actions never mix the two providers.  With Clerk enabled,
    [logout], [openLogin] and [openUserProfile] make no next-auth call;
    with Clerk disabled they make no Clerk call. *)
Theorem auth_actions_use_one_provider (config : Auth.AuthConfig)
    (store : Auth.UserStore) (location : string) (call : Auth.Call) :
  call ∈ (Auth.logout config store location ++
          Auth.openLogin config store location ++
          Auth.openUserProfile config store)%list ->
  (Auth.enableClerk config = true -> Auth.is_next_auth call = false) /\
  (Auth.enableClerk config = false -> Auth.is_clerk call = false).
Proof.
  unfold Auth.logout, Auth.openLogin, Auth.openUserProfile, Auth.optional_call.
  destruct (Auth.enableClerk config), (Auth.enableNextAuth config),
    (Auth.clerkSignOut store), (Auth.clerkSignIn store),
    (Auth.clerkOpenUserProfile store); cbn [app];
    rewrite ?elem_of_cons, elem_of_nil; intros Hin;
    repeat (destruct Hin as [->|Hin]); try contradiction;
    split; intros Hc; try discriminate Hc; reflexivity.
Qed.

Lemma auth_actions_use_one_provider_witness :
  Auth.is_next_auth (Auth.ClerkSignOut "https://chat.example/") = false /\
  Auth.is_clerk Auth.NextAuthSignOut = false.
Proof.
  split.
  - apply (proj1 (auth_actions_use_one_provider
             {| Auth.enableClerk := true; Auth.enableNextAuth := false |}
             {| Auth.clerkSignOut := true; Auth.clerkSignIn := true;
                Auth.clerkOpenUserProfile := true |}
             "https://chat.example/" _ (list_elem_of_here _ _))).
    reflexivity.
  - apply (proj2 (auth_actions_use_one_provider
             {| Auth.enableClerk := false; Auth.enableNextAuth := true |}
             {| Auth.clerkSignOut := false; Auth.clerkSignIn := false;
                Auth.clerkOpenUserProfile := false |}
             "https://chat.example/" Auth.NextAuthSignOut
             (list_elem_of_further _ _ _ (list_elem_of_here _ _)))).
    reflexivity.
Defined.

(** X16: [logout] signs out exactly once, except that with Clerk enabled
    and no [clerkSignOut] in the store it does nothing at all; and without
    Clerk, [openUserProfile] does nothing, also when next-auth is
    enabled. *)
Theorem logout_signs_out_once (config : Auth.AuthConfig)
    (store : Auth.UserStore) (location : string) :
  length (List.filter Auth.is_sign_out (Auth.logout config store location)) =
    (if Auth.enableClerk config && negb (Auth.clerkSignOut store)
     then 0%nat else 1%nat) /\
  (Auth.enableClerk config && negb (Auth.clerkSignOut store) = true ->
     Auth.logout config store location = []) /\
  (Auth.enableClerk config = false -> Auth.openUserProfile config store = []).
Proof.
  unfold Auth.logout, Auth.openUserProfile, Auth.optional_call.
  destruct (Auth.enableClerk config), (Auth.clerkSignOut store),
    (Auth.enableNextAuth config); cbn [andb negb];
    repeat split; intros; try discriminate; reflexivity.
Qed.

Lemma logout_signs_out_once_witness :
  Auth.logout {| Auth.enableClerk := true; Auth.enableNextAuth := true |}
              {| Auth.clerkSignOut := false; Auth.clerkSignIn := true;
                 Auth.clerkOpenUserProfile := true |}
              "https://chat.example/" = [] /\
  Auth.openUserProfile
    {| Auth.enableClerk := false; Auth.enableNextAuth := true |}
    {| Auth.clerkSignOut := true; Auth.clerkSignIn := true;
       Auth.clerkOpenUserProfile := true |} = [].
Proof.
  split.
  - apply (proj1 (proj2 (logout_signs_out_once _ _ _))). reflexivity.
  - apply (proj2 (proj2 (logout_signs_out_once
             {| Auth.enableClerk := false; Auth.enableNextAuth := true |}
             _ ""))). reflexivity.
Defined.

(** * The upload button *)

(** X17: [beforeUpload] uploads the file exactly once after turning the
    spinner on.  When the upload succeeds the spinner is turned off and the
    promise resolves to [false]; when it fails the error is passed on and
    the spinner is never turned off: the button keeps showing it. *)
Theorem before_upload_outcomes (upload : string -> result ErrorObject unit)
    (file : string) (loading : bool) :
  let steps := fst (fst (FileUpload.beforeUpload upload file loading)) in
  let loading' := snd (fst (FileUpload.beforeUpload upload file loading)) in
  let outcome := snd (FileUpload.beforeUpload upload file loading) in
  List.filter FileUpload.is_upload steps = [FileUpload.Upload file] /\
  steps !! 0%nat = Some (FileUpload.SetLoading true) /\
  (forall done, upload file = Return done ->
     outcome = Return false /\
     FileUpload.render loading' = FileUpload.UploadIcon /\
     last steps = Some (FileUpload.SetLoading false)) /\
  (forall e, upload file = Throw e ->
     outcome = Throw e /\
     FileUpload.render loading' = FileUpload.Spinner /\
     FileUpload.SetLoading false ∉ steps).
Proof.
  unfold FileUpload.beforeUpload.
  destruct (upload file) as [done|err];
    cbn [fst snd List.filter FileUpload.is_upload];
    (split; [reflexivity|]); (split; [reflexivity|]); split.
  - intros _ _. repeat split; reflexivity.
  - intros e He. discriminate He.
  - intros done He. discriminate He.
  - intros e [= <-]. split; [reflexivity|]. split; [reflexivity|].
    rewrite !elem_of_cons, elem_of_nil. intros [H|[H|H]]; try discriminate H.
    exact H.
Qed.

Lemma before_upload_outcomes_witness :
  snd (FileUpload.beforeUpload rejecting_upload "a.png" false) = Throw sink_closed /\
  FileUpload.render (snd (fst (FileUpload.beforeUpload rejecting_upload "a.png" false))) =
    FileUpload.Spinner.
Proof.
  destruct (before_upload_outcomes rejecting_upload "a.png" false)
    as (_ & _ & _ & Hfail).
  destruct (Hfail sink_closed eq_refl) as (Hout & Hview & _).
  split; [exact Hout | exact Hview].
Defined.
